(** * AssemblyAITranscriptReader: a shallow embedding of
      [assembly_ai_reader.py] and the properties of its request mapping,
      media preparation, rendering and temporary-file handling.

    The reader is a thin adapter around three collaborators that live
    outside the repository: the AssemblyAI SDK ([aai]), pydub's
    [AudioSegment] and llama-index's [FlatReader].  Their answers are
    taken from a record of oracles ([Externals]); everything the reader
    itself decides (which keys enter the request dictionary, whether audio
    is extracted, which renderer runs, which file is removed, which
    exception is raised) is written out as the Python source has it, in a
    state-and-exception monad over a [World] that holds the files on disk,
    the log and the trace of collaborator calls. *)

From Stdlib Require Import Ascii String ZArith Floats.PrimFloat.
From stdpp Require Import gmap strings list fin_maps.

Local Open Scope string_scope.
Local Open Scope Z_scope.
Local Open Scope list_scope.

(** ** Python strings *)

Module PyStr.

(** A str is represented by its UTF-8 bytes.  [str.lower] itself follows
    the Unicode tables of the interpreter and is one of the collaborators
    ([str_lower] below).  What is defined here is its restriction to ASCII
    text, where it maps the letters A-Z to a-z and keeps every other
    character; the concrete runs use it. *)
Definition lower_ascii (c : ascii) : ascii :=
  let n := N_of_ascii c in
  if ((65 <=? n) && (n <=? 90))%N then ascii_of_N (n + 32) else c.

(** [s.lower()] for an ASCII [s]. *)
Fixpoint ascii_lower (s : string) : string :=
  match s with
  | EmptyString => EmptyString
  | String c s' => String (lower_ascii c) (ascii_lower s')
  end.

(** [s.endswith(suffix)]: some tail of [s] is [suffix]. *)
Fixpoint endswith (s suffix : string) : bool :=
  if String.eqb s suffix then true
  else match s with
       | EmptyString => false
       | String _ s' => endswith s' suffix
       end.

(** [s.endswith((x1, ..., xn))] with a tuple argument. *)
Definition endswith_any (s : string) (suffixes : list string) : bool :=
  existsb (endswith s) suffixes.

(** [s.startswith((x1, ..., xn))] with a tuple argument. *)
Definition startswith_any (s : string) (prefixes : list string) : bool :=
  existsb (fun p => String.prefix p s) prefixes.

(** [needle in s] *)
Definition contains (s needle : string) : Prop :=
  exists before after, s = before +:+ needle +:+ after.

(** Truthiness of an [Optional[str]]: [None] and the empty string are
    false. *)
Definition truthy (o : option string) : bool :=
  match o with
  | None => false
  | Some EmptyString => false
  | Some (String _ _) => true
  end.

(** [a or b] on [Optional[str]] operands. *)
Definition or_ (a b : option string) : option string :=
  if truthy a then a else b.

(** [f"{o}"] for an [Optional[str]]: [None] prints as the word None. *)
Definition format (o : option string) : string :=
  match o with
  | None => "None"
  | Some s => s
  end.

End PyStr.

(** Truthiness of an [Optional[List[_]]]: [None] and [[]] are false. *)
Definition truthy_list {A} (o : option (list A)) : bool :=
  match o with
  | None => false
  | Some [] => false
  | Some (_ :: _) => true
  end.

(** ** Exceptions *)

(** The exception classes that occur.  [PlainException] is the class
    [Exception] itself; [LibraryError] stands for any other subclass of
    [Exception] a collaborator may raise. *)
Inductive exn_class :=
| ValueError
| AttributeError
| ImportError
| ModuleNotFoundError
| OSError
| FileNotFoundError
| FileExistsError
| IndexError
| PlainException
| LibraryError (name : string).

Record exn := Exn { exn_class_of : exn_class; str_of_exn : string }.

(** [isinstance(e, ImportError)]; [ModuleNotFoundError] is a subclass. *)
Definition is_ImportError (e : exn) : bool :=
  match exn_class_of e with
  | ImportError | ModuleNotFoundError => true
  | _ => false
  end.

Inductive Result (A : Type) :=
| Ok (a : A)
| Raise (e : exn).
Arguments Ok {A} a.
Arguments Raise {A} e.

(** ** Data of the reader *)

Module SpeechModel.
Inductive t := BEST | NANO.
Definition value (m : t) : string :=
  match m with BEST => "best" | NANO => "nano" end.
End SpeechModel.

Module TranscriptFormat.
Inductive t := TEXT | SRT | VTT.
Definition value (f : t) : string :=
  match f with TEXT => "text" | SRT => "srt" | VTT => "vtt" end.
Definition eqb (a b : t) : bool :=
  match a, b with
  | TEXT, TEXT | SRT, SRT | VTT, VTT => true
  | _, _ => false
  end.
End TranscriptFormat.

(** The part of the SDK's namespace the reader touches. *)
Module aai.

(** Members of [aai.SpeechModel] reachable from [SpeechModel.value]. *)
Inductive SpeechModel := best | nano.

(** [getattr(aai.SpeechModel, name)] *)
Definition SpeechModel_getattr (name : string) : option SpeechModel :=
  if String.eqb name "best" then Some best
  else if String.eqb name "nano" then Some nano
  else None.

Module TranscriptStatus.
Inductive t := queued | processing | completed | error.
Definition eqb (a b : t) : bool :=
  match a, b with
  | queued, queued | processing, processing
  | completed, completed | error, error => true
  | _, _ => false
  end.
End TranscriptStatus.

(** What [Transcriber.transcribe] hands back: the status, the provider's
    error message, the raw text and the two subtitle renderers, which
    take [chars_per_caption] and may themselves raise. *)
Record Transcript := {
  status : TranscriptStatus.t;
  error : option string;
  text : option string;
  export_subtitles_srt : Z -> Result string;
  export_subtitles_vtt : Z -> Result string
}.

Definition base_url : string := "https://api.eu.assemblyai.com".

End aai.

(** Values stored in the keyword dictionary given to
    [aai.TranscriptionConfig]. *)
Inductive pyval :=
| PNone
| PBool (b : bool)
| PStr (s : string)
| PFloat (x : float)
| PModel (m : aai.SpeechModel)
| PStrList (l : list string)
| PDictList (l : list (list (string * string))).

Definition PFloatOpt (o : option float) : pyval :=
  match o with None => PNone | Some x => PFloat x end.

(** The attributes [__init__] stores on [self]. *)
Record Reader := {
  api_key : option string;
  speech_model : aai.SpeechModel;
  language_detection : bool;
  language : option string;
  punctuate : bool;
  format_text : bool;
  disfluencies : bool;
  filter_profanity : bool;
  word_boost : option (list string);
  custom_spelling : option (list (list (string * string)));
  output_format : TranscriptFormat.t;
  chars_per_caption : Z;
  speech_threshold : option float;
  speaker_labels : bool;
  multichannel : bool
}.

(** A llama-index [Document], as far as the reader is concerned. *)
Record Document := {
  doc_text : string;
  doc_metadata : list (string * string)
}.

(** The [file] argument of [load_data]: [Union[str, Path]].  A [Path]
    object is represented by its [str()]. *)
Inductive file_arg :=
| FileStr (s : string)
| FilePath (p : string).

(** What [AudioSegment.from_file] is given: a path, or the handle opened
    through the optional fsspec filesystem (represented by its bytes). *)
Inductive media_src :=
| FromPath (p : string)
| FromHandle (data : string).

(** A decoded pydub segment; opaque to the reader. *)
Definition AudioSegment := N.

(** An fsspec filesystem: only [open(file, "rb")] is used. *)
Record AbstractFileSystem := {
  fs_open : string -> Result string
}.

(** ** The world *)

Inductive log_level := ERROR | WARNING.

(** Calls that leave the reader, in the order they happen. *)
Inductive event :=
| EvLog (level : log_level) (message : string)
| EvNamedTemporaryFile (name : string)
| EvFromFile (src : media_src)
| EvExport (path : string)
| EvTranscribe (config_params : gmap string pyval) (file_path : string)
| EvExportSrt (chars_per_caption : Z)
| EvExportVtt (chars_per_caption : Z)
| EvRemove (path : string)
| EvFlatReader (path : string).

Record World := {
  files : gmap string string;         (* path -> content of the file *)
  events : list event;                (* oldest first *)
  temps : nat;                        (* NamedTemporaryFile calls so far *)
  aai_settings_api_key : option string
}.

(** The collaborators.  Every field is an arbitrary function: nothing is
    assumed about what the services answer. *)
Record Externals := {
  (* s.lower(), with the case mappings of the interpreter's Unicode tables *)
  str_lower : string -> string;
  (* os.environ.get(name) *)
  environ_get : string -> option string;
  (* str(Path(s)) for a str argument *)
  Path_str : string -> string;
  (* from pydub import AudioSegment *)
  import_pydub : Result unit;
  (* directory, prefix and random part chosen by tempfile for its n-th file *)
  temp_stem : nat -> Result string;
  (* AudioSegment.from_file(src) *)
  from_file : media_src -> Result AudioSegment;
  (* segment.split_to_mono() *)
  split_to_mono : AudioSegment -> Result (list AudioSegment);
  (* the bytes segment.export(path, format="mp3") writes *)
  export_mp3 : AudioSegment -> Result string;
  (* aai.TranscriptionConfig called with the keyword dictionary: the SDK
     may reject it *)
  TranscriptionConfig_init : gmap string pyval -> Result unit;
  (* aai.Transcriber(config).transcribe(file_path) *)
  transcribe : gmap string pyval -> string -> Result aai.Transcript;
  (* why os.remove refuses to delete an existing file, if it does *)
  remove_denied : string -> option exn;
  (* FlatReader().load_data(file=Path(name)) on a file with this content *)
  FlatReader_load_data : string -> string -> Result (list Document)
}.

(** ** The monad: state over [World], with exceptions *)

Definition M (A : Type) : Type := World -> Result A * World.

Definition ret {A} (a : A) : M A := fun w => (Ok a, w).

Definition raise {A} (e : exn) : M A := fun w => (Raise e, w).

Definition bind {A B} (m : M A) (k : A -> M B) : M B :=
  fun w => match m w with
           | (Ok a, w') => k a w'
           | (Raise e, w') => (Raise e, w')
           end.

Notation "x <- m ;; k" := (bind m (fun x => k))
  (at level 100, m at next level, right associativity).
Notation "m ;;; k" := (bind m (fun _ => k))
  (at level 100, right associativity).

(** [try: body except Exception as e: handler e] *)
Definition try_except {A} (body : M A) (handler : exn -> M A) : M A :=
  fun w => match body w with
           | (Ok a, w') => (Ok a, w')
           | (Raise e, w') => handler e w'
           end.

(** Run [cleanup] after [body] on both exits, as a [with] block does. *)
Definition finally {A} (body : M A) (cleanup : M unit) : M A :=
  fun w => match body w with
           | (r, w') =>
               match cleanup w' with
               | (Ok _, w'') => (r, w'')
               | (Raise e, w'') => (Raise e, w'')
               end
           end.

Definition lift {A} (r : Result A) : M A := fun w => (r, w).

Definition emit (e : event) : M unit :=
  fun w => (Ok tt, {| files := files w; events := events w ++ [e];
                      temps := temps w;
                      aai_settings_api_key := aai_settings_api_key w |}).

Definition set_files (f : gmap string string -> gmap string string) : M unit :=
  fun w => (Ok tt, {| files := f (files w); events := events w;
                      temps := temps w;
                      aai_settings_api_key := aai_settings_api_key w |}).

Definition get_files : M (gmap string string) := fun w => (Ok (files w), w).

Definition logger_error (message : string) : M unit := emit (EvLog ERROR message).
Definition logger_warning (message : string) : M unit := emit (EvLog WARNING message).

(** ** The reader *)

(** The keyword arguments of [__init__] and their defaults. *)
Record InitArgs := {
  arg_api_key : option string;
  arg_speech_model : SpeechModel.t;
  arg_language_detection : bool;
  arg_language : option string;
  arg_punctuate : bool;
  arg_format_text : bool;
  arg_disfluencies : bool;
  arg_filter_profanity : bool;
  arg_word_boost : option (list string);
  arg_custom_spelling : option (list (list (string * string)));
  arg_output_format : TranscriptFormat.t;
  arg_chars_per_caption : Z;
  arg_speech_threshold : option float;
  arg_speaker_labels : bool;
  arg_multichannel : bool
}.

Definition default_args : InitArgs := {|
  arg_api_key := None;
  arg_speech_model := SpeechModel.BEST;
  arg_language_detection := true;
  arg_language := None;
  arg_punctuate := true;
  arg_format_text := true;
  arg_disfluencies := false;
  arg_filter_profanity := false;
  arg_word_boost := None;
  arg_custom_spelling := None;
  arg_output_format := TranscriptFormat.TEXT;
  arg_chars_per_caption := 128;
  arg_speech_threshold := None;
  arg_speaker_labels := false;
  arg_multichannel := true
|}.

Definition audio_extensions : list string :=
  [".mp3"; ".wav"; ".flac"; ".m4a"; ".ogg"].

Definition video_extensions : list string :=
  [".mp4"; ".avi"; ".mov"; ".mkv"; ".webm"].

Definition url_prefixes : list string := ["http://"; "https://"].

(** A dict display [{k1: v1, ..., kn: vn}]: the pairs are stored from left
    to right, a repeated key keeps the value written last. *)
Definition dict_display (items : list (string * pyval)) : gmap string pyval :=
  foldl (fun d kv => <[kv.1 := kv.2]> d) ∅ items.

(** [if cond: d[key] = value] *)
Definition store_if (cond : bool) (key : string) (value : pyval)
    (d : gmap string pyval) : gmap string pyval :=
  if cond then <[key := value]> d else d.

(** The dictionary [config_params] as it stands when
    [aai.TranscriptionConfig] is called (lines 213-235). *)
Definition config_params (self : Reader) : gmap string pyval :=
  let d :=
    dict_display
      [("speech_model", PModel (speech_model self));
       ("language_detection", PBool (language_detection self));
       ("punctuate", PBool (punctuate self));
       ("format_text", PBool (format_text self));
       ("disfluencies", PBool (disfluencies self));
       ("filter_profanity", PBool (filter_profanity self));
       ("speech_threshold", PFloatOpt (speech_threshold self));
       ("punctuate", PBool (punctuate self));
       ("format_text", PBool (format_text self));
       ("speaker_labels", PBool (speaker_labels self));
       ("multichannel", PBool (multichannel self))] in
  let d :=
    store_if (truthy_list (word_boost self)) "word_boost"
      (from_option PStrList PNone (word_boost self)) d in
  let d :=
    store_if (truthy_list (custom_spelling self)) "custom_spelling"
      (from_option PDictList PNone (custom_spelling self)) d in
  store_if (PyStr.truthy (language self) && negb (language_detection self))
    "language" (from_option PStr PNone (language self)) d.

(** [transcript.text or ""] *)
Definition text_or_empty (t : option string) : string :=
  if PyStr.truthy t then PyStr.format t else EmptyString.

(** [isinstance(file, str) and file.startswith(('http://', 'https://'))] *)
Definition is_url (file : file_arg) : bool :=
  match file with
  | FileStr s => PyStr.startswith_any s url_prefixes
  | FilePath _ => false
  end.

Section Reader.

Context (ext : Externals).

(** [file_path.lower().endswith(('.mp3', '.wav', '.flac', '.m4a', '.ogg'))] *)
Definition is_audio_path (file_path : string) : bool :=
  PyStr.endswith_any (str_lower ext file_path) audio_extensions.

(** [file_path.lower().endswith(('.mp4', '.avi', '.mov', '.mkv', '.webm'))] *)
Definition is_video_path (file_path : string) : bool :=
  PyStr.endswith_any (str_lower ext file_path) video_extensions.

(** [str(file)] as [load_data] sees it after line 126: a URL stays the str
    it is, any other str has become a [Path], whose [str()] is the
    normalised path.  This is the input path: the one given to
    [_prepare_audio_file], compared with in line 135 and written to the
    log. *)
Definition str_of_file (file : file_arg) : string :=
  match file with
  | FileStr s => if is_url file then s else Path_str ext s
  | FilePath p => p
  end.

(** [NamedTemporaryFile(suffix=...)]: the file is created exclusively,
    so a name that is taken is refused. *)
Definition NamedTemporaryFile (suffix : string) : M string :=
  fun w =>
    let w1 := {| files := files w; events := events w;
                 temps := S (temps w);
                 aai_settings_api_key := aai_settings_api_key w |} in
    match temp_stem ext (temps w) with
    | Raise e => (Raise e, w1)
    | Ok stem =>
        let name := stem +:+ suffix in
        match files w !! name with
        | Some _ =>
            (Raise (Exn FileExistsError
                      "No usable temporary file name found"), w1)
        | None =>
            (Ok name,
             {| files := <[name := EmptyString]> (files w);
                events := events w ++ [EvNamedTemporaryFile name];
                temps := S (temps w);
                aai_settings_api_key := aai_settings_api_key w |})
        end
    end.

(** [os.remove(path)] *)
Definition os_remove (path : string) : M unit :=
  emit (EvRemove path) ;;;
  fs <- get_files ;;
  match fs !! path with
  | None =>
      raise (Exn FileNotFoundError
               ("[Errno 2] No such file or directory: '" +:+ path +:+ "'"))
  | Some _ =>
      match remove_denied ext path with
      | Some e => raise e
      | None => set_files (delete path)
      end
  end.

(** Leaving the [with NamedTemporaryFile(delete=True)] block. *)
Definition close_and_delete (name : string) : M unit :=
  set_files (delete name).

(** [AssemblyAITranscriptReader.__init__].  [BaseReader.__init__] keeps no
    state and is left out; the global [aai.settings.api_key] is part of the
    world. *)
Definition __init__ (a : InitArgs) : M Reader :=
  let key := PyStr.or_ (arg_api_key a)
               (environ_get ext "ASSEMBLYAI_API_KEY") in
  if negb (PyStr.truthy key) then
    raise (Exn ValueError
      "AssemblyAI API key must be provided as an argument or set as environment variable 'ASSEMBLYAI_API_KEY'")
  else
    (fun w => (Ok tt, {| files := files w; events := events w;
                         temps := temps w;
                         aai_settings_api_key := key |})) ;;;
    match aai.SpeechModel_getattr (SpeechModel.value (arg_speech_model a)) with
    | None => raise (Exn AttributeError (SpeechModel.value (arg_speech_model a)))
    | Some m =>
        ret {| api_key := key;
               speech_model := m;
               language_detection := arg_language_detection a;
               language := arg_language a;
               punctuate := arg_punctuate a;
               format_text := arg_format_text a;
               disfluencies := arg_disfluencies a;
               filter_profanity := arg_filter_profanity a;
               word_boost := arg_word_boost a;
               custom_spelling := arg_custom_spelling a;
               output_format := arg_output_format a;
               chars_per_caption := arg_chars_per_caption a;
               speech_threshold := arg_speech_threshold a;
               speaker_labels := arg_speaker_labels a;
               multichannel := arg_multichannel a |}
    end.

(** The body of the [try] of [_prepare_audio_file] (lines 173-191). *)
Definition extract_audio (file_path : string)
    (fs : option AbstractFileSystem) : M string :=
  lift (import_pydub ext) ;;;
  temp_audio_path <- NamedTemporaryFile ".mp3" ;;
  video <-
    match fs with
    | Some fsys =>
        f <- lift (fs_open fsys file_path) ;;
        emit (EvFromFile (FromHandle f)) ;;;
        lift (from_file ext (FromHandle f))
    | None =>
        emit (EvFromFile (FromPath file_path)) ;;;
        lift (from_file ext (FromPath file_path))
    end ;;
  channels <- lift (split_to_mono ext video) ;;
  audio <-
    match channels with
    | [] => raise (Exn IndexError "list index out of range")
    | first :: _ => ret first
    end ;;
  emit (EvExport temp_audio_path) ;;;
  data <- lift (export_mp3 ext audio) ;;
  set_files (<[temp_audio_path := data]>) ;;;
  ret temp_audio_path.

(** [_prepare_audio_file(self, file, fs)]; [file_path] is [str(file)]. *)
Definition _prepare_audio_file (file_path : string)
    (fs : option AbstractFileSystem) : M string :=
  if is_audio_path file_path then ret file_path
  else if is_video_path file_path then
    try_except (extract_audio file_path fs)
      (fun e =>
         if is_ImportError e then
           raise (Exn ImportError "Please install pydub: 'pip install pydub'")
         else
           logger_error ("Error extracting audio: " +:+ str_of_exn e) ;;;
           raise e)
  else ret file_path.

(** [_transcribe_with_assemblyai(self, file_path)] *)
Definition _transcribe_with_assemblyai (self : Reader)
    (file_path : string) : M string :=
  let config_params := config_params self in
  lift (TranscriptionConfig_init ext config_params) ;;;
  emit (EvTranscribe config_params file_path) ;;;
  transcript <- lift (transcribe ext config_params file_path) ;;
  if aai.TranscriptStatus.eqb (aai.status transcript)
       aai.TranscriptStatus.error then
    let error_msg :=
      "Transcription failed: " +:+ PyStr.format (aai.error transcript) in
    logger_error error_msg ;;;
    raise (Exn PlainException error_msg)
  else
    match output_format self with
    | TranscriptFormat.SRT =>
        emit (EvExportSrt (chars_per_caption self)) ;;;
        lift (aai.export_subtitles_srt transcript (chars_per_caption self))
    | TranscriptFormat.VTT =>
        emit (EvExportVtt (chars_per_caption self)) ;;;
        lift (aai.export_subtitles_vtt transcript (chars_per_caption self))
    | TranscriptFormat.TEXT =>
        ret (text_or_empty (aai.text transcript))
    end.

(** Lines 134-139: remove the extracted audio, if there is one. *)
Definition cleanup (file : file_arg) (file_path : string) : M unit :=
  if negb (is_url file) && negb (String.eqb file_path (str_of_file file)) then
    try_except (os_remove file_path)
      (fun e =>
         logger_warning ("Failed to remove temporary file " +:+ file_path
                         +:+ ": " +:+ str_of_exn e))
  else ret tt.

(** Lines 141-148: the transcript goes through a second temporary file
    into [FlatReader]. *)
Definition make_documents (transcript : string) : M (list Document) :=
  temp_file <- NamedTemporaryFile EmptyString ;;
  finally
    (set_files (<[temp_file := transcript]>) ;;;
     emit (EvFlatReader temp_file) ;;;
     lift (FlatReader_load_data ext temp_file transcript))
    (close_and_delete temp_file).

(** Lines 119-129: a URL is taken as it is, a local file goes through
    [_prepare_audio_file]. *)
Definition media_path (file : file_arg)
    (fs : option AbstractFileSystem) : M string :=
  if is_url file then ret (str_of_file file)
  else _prepare_audio_file (str_of_file file) fs.

(** [load_data(self, file, extra_info, fs)] *)
Definition load_data (self : Reader) (file : file_arg)
    (extra_info : option (list (string * string)))
    (fs : option AbstractFileSystem) : M (list Document) :=
  try_except
    (file_path <- media_path file fs ;;
     transcript <- _transcribe_with_assemblyai self file_path ;;
     cleanup file file_path ;;;
     make_documents transcript)
    (fun e =>
       logger_error ("Error transcribing file " +:+ str_of_file file
                     +:+ ": " +:+ str_of_exn e) ;;;
       raise e).

End Reader.

(** ** Projections of a trace *)

(** The characters of a string, last one first. *)
Definition backwards (s : string) : list ascii := rev (list_ascii_of_string s).

(** The paths [os.remove] was called on. *)
Definition removes (l : list event) : list string :=
  omap (fun e => match e with EvRemove p => Some p | _ => None end) l.

(** The sources [AudioSegment.from_file] was called on. *)
Definition extractions (l : list event) : list media_src :=
  omap (fun e => match e with EvFromFile s => Some s | _ => None end) l.

(** The subtitle renderer calls, with the width each one was given. *)
Definition renders (l : list event) : list (TranscriptFormat.t * Z) :=
  omap (fun e => match e with
                 | EvExportSrt n => Some (TranscriptFormat.SRT, n)
                 | EvExportVtt n => Some (TranscriptFormat.VTT, n)
                 | _ => None
                 end) l.

(** The remote calls: keyword dictionary and media path. *)
Definition remote_calls (l : list event) : list (gmap string pyval * string) :=
  omap (fun e => match e with EvTranscribe d p => Some (d, p) | _ => None end) l.

(** The files handed to [FlatReader]. *)
Definition documents_built (l : list event) : list string :=
  omap (fun e => match e with EvFlatReader p => Some p | _ => None end) l.

(** Events [_prepare_audio_file] may leave. *)
Definition preparation_event (e : event) : Prop :=
  match e with
  | EvLog _ _ | EvNamedTemporaryFile _ | EvFromFile _ | EvExport _ => True
  | _ => False
  end.

(** Events [_transcribe_with_assemblyai] may leave for the reader [self]:
    the remote call carries [config_params self], a renderer is given
    [chars_per_caption self]. *)
Definition transcription_event (self : Reader) (e : event) : Prop :=
  match e with
  | EvLog _ _ => True
  | EvTranscribe d _ => d = config_params self
  | EvExportSrt n | EvExportVtt n => n = chars_per_caption self
  | _ => False
  end.

(** Events the building of the documents may leave. *)
Definition document_event (e : event) : Prop :=
  match e with
  | EvNamedTemporaryFile _ | EvFlatReader _ => True
  | _ => False
  end.

(** Events the removal of the extracted audio may leave. *)
Definition cleanup_event (e : event) : Prop :=
  match e with
  | EvLog _ _ | EvRemove _ => True
  | _ => False
  end.

(** Events [load_data] may leave for the reader [self]. *)
Definition reader_event (self : Reader) (e : event) : Prop :=
  match e with
  | EvTranscribe d _ => d = config_params self
  | EvExportSrt n | EvExportVtt n => n = chars_per_caption self
  | _ => True
  end.

(** ** Concrete collaborators, used to run the reader *)

Module Scenario.

Definition transcript (st : aai.TranscriptStatus.t)
    (err txt : option string) : aai.Transcript := {|
  aai.status := st;
  aai.error := err;
  aai.text := txt;
  aai.export_subtitles_srt :=
    fun n => Ok (if n =? 256 then "srt at 256" else "srt");
  aai.export_subtitles_vtt :=
    fun n => Ok (if n =? 256 then "vtt at 256" else "vtt")
|}.

Definition completed : aai.Transcript :=
  transcript aai.TranscriptStatus.completed None (Some "hello world").

Definition silent : aai.Transcript :=
  transcript aai.TranscriptStatus.completed None None.

Definition failed : aai.Transcript :=
  transcript aai.TranscriptStatus.error (Some "Download error") None.

(** pydub installed, a decodable stereo input, a service answering [t],
    and [os.remove] refusing the paths in [locked].  The paths of the runs
    are ASCII, where [str.lower] is [PyStr.ascii_lower]. *)
Definition ext (env_key : option string) (t : aai.Transcript)
    (locked : list string) : Externals := {|
  str_lower := PyStr.ascii_lower;
  environ_get := fun name =>
    if String.eqb name "ASSEMBLYAI_API_KEY" then env_key else None;
  Path_str := fun s => s;
  import_pydub := Ok tt;
  temp_stem := fun n =>
    Ok (match n with O => "/tmp/tmpk3v9" | _ => "/tmp/tmpq71x" end);
  from_file := fun _ => Ok 1%N;
  split_to_mono := fun _ => Ok [2%N; 3%N];
  export_mp3 := fun _ => Ok "ID3 left channel";
  TranscriptionConfig_init := fun _ => Ok tt;
  transcribe := fun _ _ => Ok t;
  remove_denied := fun p =>
    if existsb (String.eqb p) locked
    then Some (Exn OSError "Permission denied") else None;
  FlatReader_load_data := fun name content =>
    Ok [ {| doc_text := content; doc_metadata := [("filename", name)] |} ]
|}.

Definition world : World := {|
  files := {[ "talk.mp4" := "moving pictures"; "memo.ogg" := "voice" ]};
  events := [];
  temps := 0;
  aai_settings_api_key := None
|}.

Definition args : InitArgs := {|
  arg_api_key := Some "secret";
  arg_speech_model := SpeechModel.BEST;
  arg_language_detection := false;
  arg_language := Some "en";
  arg_punctuate := true;
  arg_format_text := true;
  arg_disfluencies := false;
  arg_filter_profanity := false;
  arg_word_boost := Some ["Rocq"];
  arg_custom_spelling := None;
  arg_output_format := TranscriptFormat.SRT;
  arg_chars_per_caption := 256;
  arg_speech_threshold := None;
  arg_speaker_labels := true;
  arg_multichannel := false
|}.

(** The reader [__init__] builds from [args]. *)
Definition reader (fmt : TranscriptFormat.t) : Reader := {|
  api_key := Some "secret";
  speech_model := aai.best;
  language_detection := false;
  language := Some "en";
  punctuate := true;
  format_text := true;
  disfluencies := false;
  filter_profanity := false;
  word_boost := Some ["Rocq"];
  custom_spelling := None;
  output_format := fmt;
  chars_per_caption := 256;
  speech_threshold := None;
  speaker_labels := true;
  multichannel := false
|}.

Definition text_reader : Reader := reader TranscriptFormat.TEXT.
Definition srt_reader : Reader := reader TranscriptFormat.SRT.

End Scenario.

(** ** Further projections and collaborators *)

(** [str.lower] leaves [suffix] at the end of a string alone.  The
    interpreter's [str.lower] does so for an ASCII lower-case suffix such
    as .mp3: it maps a str character by character, in order, and these
    characters to themselves. *)
Definition lower_keeps (ext : Externals) (suffix : string) : Prop :=
  forall s, PyStr.endswith (str_lower ext (s +:+ suffix)) suffix = true.

(** What [AudioSegment.from_file] is called on (lines 181-185): the
    handle [fs.open] gives when a filesystem is passed, the path itself
    otherwise. *)
Definition decoder_input (fs : option AbstractFileSystem)
    (file_path : string) : Result media_src :=
  match fs with
  | Some fsys =>
      match fs_open fsys file_path with
      | Ok f => Ok (FromHandle f)
      | Raise e => Raise e
      end
  | None => Ok (FromPath file_path)
  end.

(** The world after an extraction into the new file [q]: the file holds
    the exported bytes, and the trace has the creation of the file, the
    decoder call and the export. *)
Definition after_extraction (w : World) (q data : string)
    (src : media_src) : World :=
  {| files := <[q := data]> (files w);
     events := events w ++ [EvNamedTemporaryFile q; EvFromFile src;
                            EvExport q];
     temps := S (temps w);
     aai_settings_api_key := aai_settings_api_key w |}.

(** Every step of lines 173-189 goes through: pydub is there, tempfile
    gives the free name [stem].mp3, the input opens and decodes, it has a
    first mono channel, and that channel exports to [data]. *)
Definition extraction_goes_through (ext : Externals)
    (fs : option AbstractFileSystem) (file_path : string) (w : World)
    (stem : string) (src : media_src) (data : string) : Prop :=
  import_pydub ext = Ok tt
  /\ temp_stem ext (temps w) = Ok stem
  /\ files w !! (stem +:+ ".mp3") = None
  /\ decoder_input fs file_path = Ok src
  /\ exists video first rest,
       from_file ext src = Ok video
       /\ split_to_mono ext video = Ok (first :: rest)
       /\ export_mp3 ext first = Ok data.

(** The log records, oldest first. *)
Definition logs (l : list event) : list (log_level * string) :=
  omap (fun e => match e with EvLog lv m => Some (lv, m) | _ => None end) l.

(** The world after one more event. *)
Definition with_event (w : World) (e : event) : World :=
  {| files := files w; events := events w ++ [e]; temps := temps w;
     aai_settings_api_key := aai_settings_api_key w |}.

(** The record [load_data] writes before it re-raises (line 151). *)
Definition failure_record (file_str : string) (e : exn) : event :=
  EvLog ERROR ("Error transcribing file " +:+ file_str +:+ ": "
               +:+ str_of_exn e).

(** The message of line 193. *)
Definition pydub_hint : exn :=
  Exn ImportError "Please install pydub: 'pip install pydub'".

(** Every key [config_params] can hold. *)
Definition config_keys : list string :=
  ["speech_model"; "language_detection"; "punctuate"; "format_text";
   "disfluencies"; "filter_profanity"; "speech_threshold";
   "speaker_labels"; "multichannel"; "word_boost"; "custom_spelling";
   "language"].

(** [getattr(aai.SpeechModel, m.value)] for the two members of
    [SpeechModel]. *)
Definition provider_model (m : SpeechModel.t) : aai.SpeechModel :=
  match m with
  | SpeechModel.BEST => aai.best
  | SpeechModel.NANO => aai.nano
  end.

Module Failures.

(** [Scenario.ext] on a machine without pydub. *)
Definition without_pydub : Externals := {|
  str_lower := PyStr.ascii_lower;
  environ_get := environ_get (Scenario.ext None Scenario.completed []);
  Path_str := fun s => s;
  import_pydub := Raise (Exn ModuleNotFoundError "No module named 'pydub'");
  temp_stem := temp_stem (Scenario.ext None Scenario.completed []);
  from_file := fun _ => Ok 1%N;
  split_to_mono := fun _ => Ok [2%N; 3%N];
  export_mp3 := fun _ => Ok "ID3 left channel";
  TranscriptionConfig_init := fun _ => Ok tt;
  transcribe := fun _ _ => Ok Scenario.completed;
  remove_denied := fun _ => None;
  FlatReader_load_data :=
    FlatReader_load_data (Scenario.ext None Scenario.completed [])
|}.

(** [Scenario.ext] with a decoder that rejects the input. *)
Definition undecodable : Externals := {|
  str_lower := PyStr.ascii_lower;
  environ_get := environ_get (Scenario.ext None Scenario.completed []);
  Path_str := fun s => s;
  import_pydub := Ok tt;
  temp_stem := temp_stem (Scenario.ext None Scenario.completed []);
  from_file := fun _ =>
    Raise (Exn (LibraryError "CouldntDecodeError") "Decoding failed");
  split_to_mono := fun _ => Ok [2%N; 3%N];
  export_mp3 := fun _ => Ok "ID3 left channel";
  TranscriptionConfig_init := fun _ => Ok tt;
  transcribe := fun _ _ => Ok Scenario.completed;
  remove_denied := fun _ => None;
  FlatReader_load_data :=
    FlatReader_load_data (Scenario.ext None Scenario.completed [])
|}.

End Failures.

(** ** Running the monad *)

Ltac unfold_m :=
  unfold logger_error, logger_warning in *;
  unfold bind, ret, raise, lift, emit, set_files, get_files,
    try_except, finally in *.

(** Push the projections of a trace through the events appended to it. *)
Ltac trace_simpl :=
  simpl in *;
  unfold removes, extractions, renders, remote_calls, documents_built in *;
  rewrite ?omap_app in *; simpl in *; rewrite ?app_nil_r in *.

(** [trace_simpl], with the log among the projections. *)
Ltac trace_log_simpl :=
  simpl in *;
  unfold logs, removes, extractions, renders, remote_calls,
    documents_built in *;
  rewrite ?omap_app in *; simpl in *; rewrite ?app_nil_r in *.

(** ** Facts about strings and extensions *)

Section StringFacts.

Lemma app_cons c a b : String c a +:+ b = String c (a +:+ b).
Proof. reflexivity. Qed.

Lemma app_empty b : EmptyString +:+ b = b.
Proof. reflexivity. Qed.

Lemma app_empty_r a : a +:+ EmptyString = a.
Proof.
  induction a as [|c a IH]; rewrite ?app_cons, ?app_empty; [done|].
  by rewrite IH.
Qed.

Lemma endswith_refl s : PyStr.endswith s s = true.
Proof. destruct s; cbn -[String.eqb]; by rewrite String.eqb_refl. Qed.

Lemma endswith_app pre suffix : PyStr.endswith (pre +:+ suffix) suffix = true.
Proof.
  induction pre as [|c pre IH]; rewrite ?app_cons, ?app_empty; cbn -[String.eqb].
  - apply endswith_refl.
  - rewrite IH. by destruct (String.eqb _ _).
Qed.

Lemma endswith_inv s suffix :
  PyStr.endswith s suffix = true -> exists pre, s = pre +:+ suffix.
Proof.
  induction s as [|c s IH]; cbn -[String.eqb].
  - destruct suffix; [by exists EmptyString | done].
  - destruct (String.eqb (String c s) suffix) eqn:E.
    + apply String.eqb_eq in E. by exists EmptyString.
    + intros [pre ->]%IH. by exists (String c pre).
Qed.

Lemma lower_app a b :
  PyStr.ascii_lower (a +:+ b) = PyStr.ascii_lower a +:+ PyStr.ascii_lower b.
Proof.
  induction a as [|c a IH]; rewrite ?app_cons, ?app_empty; simpl;
    [done | by rewrite IH].
Qed.

Lemma list_ascii_app a b :
  list_ascii_of_string (a +:+ b)
  = (list_ascii_of_string a ++ list_ascii_of_string b)%list.
Proof.
  induction a as [|c a IH]; rewrite ?app_cons, ?app_empty; simpl;
    [done | by rewrite IH].
Qed.

Lemma backwards_app a b : backwards (a +:+ b) = (backwards b ++ backwards a)%list.
Proof. unfold backwards. by rewrite list_ascii_app, rev_app_distr. Qed.

Lemma endswith_any_inv s suffixes :
  PyStr.endswith_any s suffixes = true ->
  exists suffix pre, suffix ∈ suffixes /\ s = pre +:+ suffix.
Proof.
  unfold PyStr.endswith_any. intros (suffix & Hin & [pre ->]%endswith_inv)%existsb_exists.
  exists suffix, pre. split; [by apply list_elem_of_In | done].
Qed.

(** No path is both an audio and a video path: the two tuples of
    extensions never end the same string. *)
Lemma video_not_audio (ext : Externals) file_path :
  is_video_path ext file_path = true -> is_audio_path ext file_path = false.
Proof.
  unfold is_video_path, is_audio_path. intros Hv.
  destruct (PyStr.endswith_any _ audio_extensions) eqn:Ha; [|done].
  apply endswith_any_inv in Hv as (sv & pv & Hsv & Hv).
  apply endswith_any_inv in Ha as (sa & pa & Hsa & Ha).
  rewrite Hv in Ha. apply (f_equal backwards) in Ha.
  rewrite !backwards_app in Ha.
  unfold video_extensions, audio_extensions in *.
  repeat (apply elem_of_cons in Hsv as [->|Hsv]);
    [..|by apply elem_of_nil in Hsv];
    (repeat (apply elem_of_cons in Hsa as [->|Hsa]);
       [..|by apply elem_of_nil in Hsa]);
    unfold backwards in Ha; simpl in Ha; discriminate Ha.
Qed.

(** A name made by [NamedTemporaryFile(suffix='.mp3')] is an audio path,
    and therefore not a video path, when [str.lower] keeps the suffix. *)
Lemma temp_mp3_is_audio (ext : Externals) stem :
  lower_keeps ext ".mp3" -> is_audio_path ext (stem +:+ ".mp3") = true.
Proof.
  intros Hk. unfold is_audio_path, audio_extensions, PyStr.endswith_any.
  simpl. by rewrite Hk.
Qed.

Lemma temp_mp3_not_video (ext : Externals) stem :
  lower_keeps ext ".mp3" -> is_video_path ext (stem +:+ ".mp3") = false.
Proof.
  intros Hk%(temp_mp3_is_audio _ stem).
  destruct (is_video_path ext _) eqn:Hv; [|done].
  apply video_not_audio in Hv. congruence.
Qed.

(** The ASCII restriction of [str.lower] keeps the suffix .mp3. *)
Lemma ascii_lower_keeps_mp3 (ext : Externals) :
  str_lower ext = PyStr.ascii_lower -> lower_keeps ext ".mp3".
Proof.
  intros Hl s. rewrite Hl, lower_app.
  change (PyStr.ascii_lower ".mp3") with ".mp3". apply endswith_app.
Qed.

End StringFacts.

(** ** The request dictionary *)

Section Payload.

Variable self : Reader.

Lemma lookup_store_if_eq cond key value (d : gmap string pyval) :
  store_if cond key value d !! key = if cond then Some value else d !! key.
Proof. unfold store_if. destruct cond; [apply lookup_insert_eq | done]. Qed.

Lemma lookup_store_if_ne cond key key' value (d : gmap string pyval) :
  key <> key' -> store_if cond key value d !! key' = d !! key'.
Proof. unfold store_if. destruct cond; [apply lookup_insert_ne | done]. Qed.

Lemma config_params_language :
  config_params self !! "language"
  = if PyStr.truthy (language self) && negb (language_detection self)
    then Some (from_option PStr PNone (language self)) else None.
Proof.
  unfold config_params. rewrite lookup_store_if_eq.
  destruct (_ && _); [done|].
  rewrite !lookup_store_if_ne by done.
  unfold dict_display; simpl. by rewrite !lookup_insert_ne by done.
Qed.

Lemma config_params_word_boost :
  config_params self !! "word_boost"
  = if truthy_list (word_boost self)
    then Some (from_option PStrList PNone (word_boost self)) else None.
Proof.
  unfold config_params. rewrite !lookup_store_if_ne, lookup_store_if_eq by done.
  destruct (truthy_list _); [done|].
  unfold dict_display; simpl. by rewrite !lookup_insert_ne by done.
Qed.

Lemma config_params_custom_spelling :
  config_params self !! "custom_spelling"
  = if truthy_list (custom_spelling self)
    then Some (from_option PDictList PNone (custom_spelling self)) else None.
Proof.
  unfold config_params. rewrite !lookup_store_if_ne, lookup_store_if_eq by done.
  destruct (truthy_list _); [done|].
  rewrite !lookup_store_if_ne by done.
  unfold dict_display; simpl. by rewrite !lookup_insert_ne by done.
Qed.

Lemma config_params_speech_threshold :
  config_params self !! "speech_threshold"
  = Some (PFloatOpt (speech_threshold self)).
Proof.
  unfold config_params. rewrite !lookup_store_if_ne by done.
  unfold dict_display; simpl.
  rewrite !lookup_insert_ne by done. apply lookup_insert_eq.
Qed.

End Payload.

(** ** What each phase of [load_data] does to the world *)

Section Phases.

Context (ext : Externals).

(** Audio extraction writes only to the temporary mp3 file it creates,
    whose name was free: the files that were there keep their content.
    On success the decoder has been called once and the result is the new
    file. *)
Lemma extract_audio_spec file_path fs w r w' :
  extract_audio ext file_path fs w = (r, w') ->
  (forall x, is_Some (files w !! x) -> files w' !! x = files w !! x)
  /\ exists l,
       events w' = events w ++ l
       /\ Forall preparation_event l
       /\ (length (extractions l) <= 1)%nat
       /\ removes l = []
       /\ match r with
          | Ok q =>
              (exists stem, q = stem +:+ ".mp3")
              /\ files w !! q = None
              /\ is_Some (files w' !! q)
              /\ length (extractions l) = 1%nat
          | Raise _ => True
          end.
Proof.
  unfold extract_audio, NamedTemporaryFile. unfold_m. intros H.
  repeat case_match; simplify_eq/=;
    (split; [intros x [c Hx]; rewrite ?lookup_insert_ne by congruence;
             done|]);
    rewrite <- ?app_assoc; eexists; (split; [try done; by rewrite app_nil_r|]);
    trace_simpl; repeat split; eauto using Forall_nil, Forall_cons;
    try (repeat constructor; done); try lia;
    try (by rewrite lookup_insert_eq).
Qed.

(** The extraction returns exactly when every one of its steps goes
    through, and then with the new file written and the three calls in the
    trace. *)
Lemma extract_audio_ok_iff file_path fs w q w' :
  extract_audio ext file_path fs w = (Ok q, w')
  <-> exists stem src data,
        extraction_goes_through ext fs file_path w stem src data
        /\ q = stem +:+ ".mp3"
        /\ w' = after_extraction w q data src.
Proof.
  unfold extraction_goes_through, decoder_input, after_extraction. split.
  - unfold extract_audio, NamedTemporaryFile. unfold_m. intros H.
    repeat case_match; simplify_eq/=;
      repeat match goal with u : unit |- _ => destruct u end;
      do 3 eexists;
      (split; [split_and!;
               [reflexivity | reflexivity | eassumption | reflexivity
               | do 3 eexists; split_and!; eassumption]|]);
      (split; [reflexivity|]);
      by rewrite insert_insert_eq, <- !app_assoc.
  - intros (stem & src & data & (Hi & Hs & Hn & Hsrc & video & first & rest
                                 & Hf & Hm & Hx) & -> & ->).
    unfold extract_audio, NamedTemporaryFile. unfold_m.
    rewrite Hi, Hs, Hn. simpl.
    destruct fs as [fsys|]; simpl in *;
      [destruct (fs_open fsys file_path) as [f|e]|]; simplify_eq/=;
      rewrite Hf, Hm; simpl; rewrite Hx; simpl;
      by rewrite insert_insert_eq, <- !app_assoc.
Qed.

Lemma prepare_audio_spec file_path fs w r w' :
  _prepare_audio_file ext file_path fs w = (r, w') ->
  (forall x, is_Some (files w !! x) -> files w' !! x = files w !! x)
  /\ exists l,
       events w' = events w ++ l
       /\ Forall preparation_event l
       /\ (length (extractions l) <= 1)%nat
       /\ removes l = []
       /\ match r with
          | Ok q =>
              (q = file_path /\ w' = w
               /\ is_video_path ext file_path = false)
              \/ (is_video_path ext file_path = true
                  /\ (exists stem, q = stem +:+ ".mp3")
                  /\ files w !! q = None
                  /\ is_Some (files w' !! q)
                  /\ length (extractions l) = 1%nat)
          | Raise _ => is_video_path ext file_path = true
          end.
Proof.
  unfold _prepare_audio_file.
  destruct (is_audio_path ext file_path) eqn:Ha.
  { intros [= <- <-]. split; [done|]. exists []. rewrite app_nil_r.
    repeat split; auto. left. repeat split.
    destruct (is_video_path ext file_path) eqn:Hv; [|done].
    apply video_not_audio in Hv. congruence. }
  destruct (is_video_path ext file_path) eqn:Hv; cycle 1.
  { intros [= <- <-]. split; [done|]. exists []. rewrite app_nil_r.
    repeat split; auto. }
  unfold try_except.
  destruct (extract_audio ext file_path fs w) as [[q|e] w1] eqn:He;
    apply extract_audio_spec in He
      as (Hfiles & l & Hev & Hprep & Hcount & Hrm & Hres).
  - intros [= <- <-]. split; [done|]. exists l.
    do 4 (split; [done|]). right.
    destruct Hres as (Hst & Hnone & Hsome & Hone). by repeat split.
  - destruct (is_ImportError e); unfold_m; intros [= <- <-].
    + split; [done|]. exists l. by repeat split.
    + split; [done|]. simpl. rewrite Hev, <- app_assoc. eexists.
      split; [done|]. trace_simpl.
      repeat split; [apply Forall_app; split;
                       [done | by repeat constructor] | done | done].
Qed.

Lemma media_path_spec file fs w r w' :
  media_path ext file fs w = (r, w') ->
  (forall x, is_Some (files w !! x) -> files w' !! x = files w !! x)
  /\ exists l,
       events w' = events w ++ l
       /\ Forall preparation_event l
       /\ removes l = []
       /\ match r with
          | Ok q =>
              (q = str_of_file ext file /\ w' = w)
              \/ (is_url file = false
                  /\ is_video_path ext (str_of_file ext file) = true
                  /\ (exists stem, q = stem +:+ ".mp3")
                  /\ files w !! q = None
                  /\ is_Some (files w' !! q))
          | Raise _ =>
              is_url file = false
              /\ is_video_path ext (str_of_file ext file) = true
          end.
Proof.
  unfold media_path. destruct (is_url file) eqn:Hu.
  - intros [= <- <-]. split; [done|]. exists []. rewrite app_nil_r.
    repeat split; auto.
  - intros (Hf & l & Hev & Hp & _ & Hrm & Hres)%prepare_audio_spec.
    split; [done|]. exists l. repeat split; auto.
    destruct r as [q|e]; [|done].
    destruct Hres as [(-> & -> & _) | (Hv & Hst & Hno & Hso & _)]; auto 10.
Qed.

Lemma transcribe_spec self file_path w r w' :
  _transcribe_with_assemblyai ext self file_path w = (r, w') ->
  files w' = files w
  /\ exists l,
       events w' = events w ++ l
       /\ Forall (transcription_event self) l
       /\ removes l = [].
Proof.
  unfold _transcribe_with_assemblyai. unfold_m. intros H.
  repeat case_match; simplify_eq/=; (split; [done|]);
    rewrite <- ?app_assoc; eexists;
    (split; [try done; by rewrite app_nil_r|]);
    trace_simpl; split; try done; by repeat constructor.
Qed.

Lemma cleanup_spec file file_path w r w' :
  cleanup ext file file_path w = (r, w') ->
  r = Ok tt
  /\ (forall x, x <> file_path -> files w' !! x = files w !! x)
  /\ exists l,
       events w' = events w ++ l
       /\ Forall cleanup_event l
       /\ ((l = [] /\ files w' = files w)
           \/ (is_url file = false
               /\ file_path <> str_of_file ext file
               /\ removes l = [file_path])).
Proof.
  unfold cleanup, os_remove. unfold_m. intros H.
  destruct (is_url file) eqn:Hu; simpl in H.
  { simplify_eq. repeat split; auto. exists []. rewrite app_nil_r. auto. }
  destruct (String.eqb file_path (str_of_file ext file)) eqn:He; simpl in H.
  { simplify_eq. repeat split; auto. exists []. rewrite app_nil_r. auto. }
  apply String.eqb_neq in He.
  repeat case_match; simplify_eq/=;
    (split; [done|]);
    (split; [intros x Hx; by rewrite ?lookup_delete_ne by done|]);
    rewrite <- ?app_assoc; eexists; (split; [done|]);
    (split; [by repeat constructor|]); right;
    by trace_simpl.
Qed.

Lemma make_documents_spec transcript w r w' :
  make_documents ext transcript w = (r, w') ->
  files w' = files w
  /\ exists l,
       events w' = events w ++ l
       /\ Forall document_event l
       /\ removes l = [].
Proof.
  unfold make_documents, NamedTemporaryFile, close_and_delete. unfold_m.
  intros H.
  repeat case_match; simplify_eq/=;
    (split; [try done;
             by rewrite insert_insert_eq, delete_insert_eq, delete_id|]);
    rewrite <- ?app_assoc; eexists;
    (split; [try done; by rewrite app_nil_r|]);
    trace_simpl; split; try done; by repeat constructor.
Qed.

Lemma preparation_is_reader_event self e :
  preparation_event e -> reader_event self e.
Proof. by destruct e. Qed.

Lemma transcription_is_reader_event self e :
  transcription_event self e -> reader_event self e.
Proof. by destruct e. Qed.

Lemma document_is_reader_event self e :
  document_event e -> reader_event self e.
Proof. by destruct e. Qed.

Lemma cleanup_is_reader_event self e :
  cleanup_event e -> reader_event self e.
Proof. by destruct e. Qed.

(** The whole of [load_data]: an input file that was on disk still has
    its content, at most one [os.remove] happened, and then on a path
    other than the input path, for a local video file; for any other
    input the files on disk are the same after the call as before. *)
Lemma load_data_spec self file extra_info fs w r w' :
  load_data ext self file extra_info fs w = (r, w') ->
  (is_Some (files w !! str_of_file ext file) ->
   files w' !! str_of_file ext file = files w !! str_of_file ext file)
  /\ (is_url file = true \/ is_video_path ext (str_of_file ext file) = false ->
      files w' = files w)
  /\ exists l,
       events w' = events w ++ l
       /\ Forall (reader_event self) l
       /\ (removes l = []
           \/ exists q, removes l = [q]
                        /\ q <> str_of_file ext file
                        /\ is_url file = false
                        /\ is_video_path ext (str_of_file ext file) = true).
Proof.
  unfold load_data, try_except, bind. intros H.
  destruct (media_path ext file fs w) as [[q|e] w1] eqn:Hm;
    apply media_path_spec in Hm as (Hf1 & l1 & Hev1 & Hp1 & Hrm1 & Hres1);
    pose proof (Forall_impl _ _ _ Hp1 (preparation_is_reader_event self))
      as Hq1.
  - assert (Hplain : is_url file = true
                     \/ is_video_path ext (str_of_file ext file) = false ->
                     q = str_of_file ext file /\ w1 = w).
    { intros Hnv. destruct Hres1 as [? | (Hu & Hv & _)]; [done|].
      destruct Hnv; congruence. }
    destruct (_transcribe_with_assemblyai ext self q w1)
      as [[tr|e] w2] eqn:Ht;
      apply transcribe_spec in Ht as (Hf2 & l2 & Hev2 & Hp2 & Hrm2);
      pose proof (Forall_impl _ _ _ Hp2 (transcription_is_reader_event self))
        as Hq2.
    + destruct (cleanup ext file q w2) as [rc w3] eqn:Hc.
      apply cleanup_spec in Hc as (-> & Hf3 & l3 & Hev3 & Hp3 & Hcase).
      pose proof (Forall_impl _ _ _ Hp3 (cleanup_is_reader_event self))
        as Hq3.
      assert (Hin3 : is_Some (files w !! str_of_file ext file) ->
                     files w3 !! str_of_file ext file
                     = files w !! str_of_file ext file).
      { intros Hex. rewrite <- (Hf1 _ Hex), <- Hf2.
        destruct Hcase as [[_ ->] | (_ & Hne & _)]; [done|].
        by apply Hf3. }
      assert (Hall3 : is_url file = true
                      \/ is_video_path ext (str_of_file ext file) = false ->
                      files w3 = files w).
      { intros [-> ->]%Hplain. rewrite <- Hf2.
        by destruct Hcase as [[_ ->] | (_ & Hne & _)]. }
      assert (Hrm3 : removes (l1 ++ l2 ++ l3) = []
                     \/ exists q', removes (l1 ++ l2 ++ l3) = [q']
                          /\ q' <> str_of_file ext file
                          /\ is_url file = false
                          /\ is_video_path ext (str_of_file ext file) = true).
      { unfold removes in *. rewrite !omap_app, Hrm1, Hrm2. simpl.
        destruct Hcase as [[-> _] | (Hu & Hne & ->)]; [by left|].
        right. exists q. repeat split; auto.
        destruct Hres1 as [[-> _] | (_ & Hv & _)]; done. }
      destruct (make_documents ext tr w3) as [[docs|e] w4] eqn:Hd;
        apply make_documents_spec in Hd as (Hf4 & l4 & Hev4 & Hp4 & Hrm4);
        pose proof (Forall_impl _ _ _ Hp4 (document_is_reader_event self))
          as Hq4.
      * simplify_eq. rewrite Hf4. do 2 (split; [done|]).
        exists (l1 ++ l2 ++ l3 ++ l4).
        rewrite Hev4, Hev3, Hev2, Hev1, <- !app_assoc. split; [done|].
        split; [by rewrite !Forall_app|].
        unfold removes in *.
        rewrite !app_assoc, omap_app, Hrm4, app_nil_r, <- !app_assoc.
        done.
      * unfold_m. simplify_eq/=. rewrite Hf4. do 2 (split; [done|]).
        eexists (l1 ++ l2 ++ l3 ++ l4 ++ [_]).
        rewrite Hev4, Hev3, Hev2, Hev1, <- !app_assoc. split; [done|].
        split; [rewrite !Forall_app; repeat split; auto;
                by repeat constructor|].
        unfold removes in *.
        rewrite !app_assoc, !omap_app, Hrm4. simpl.
        rewrite !app_nil_r, <- !omap_app, <- !app_assoc. done.
    + unfold_m. simplify_eq/=. rewrite Hf2.
      split; [apply Hf1|]. split; [by intros [_ ->]%Hplain|].
      eexists (l1 ++ l2 ++ [_]).
      rewrite Hev2, Hev1, <- !app_assoc. split; [done|].
      split; [rewrite !Forall_app; repeat split; auto;
              by repeat constructor|].
      left. unfold removes in *. by rewrite !omap_app, Hrm1, Hrm2.
  - unfold_m. simplify_eq/=. split; [apply Hf1|].
    split; [intros Hnv; destruct Hres1 as [Hu Hv]; destruct Hnv; congruence|].
    eexists (l1 ++ [_]). rewrite Hev1, <- !app_assoc. split; [done|].
    split; [rewrite !Forall_app; repeat split; auto;
            by repeat constructor|].
    left. unfold removes in *. by rewrite !omap_app, Hrm1.
Qed.

Lemma preparation_events_silent l :
  Forall preparation_event l ->
  renders l = [] /\ documents_built l = [] /\ remote_calls l = [].
Proof.
  induction 1 as [|e l He _ (IH1 & IH2 & IH3)]; [done|].
  destruct e; try done;
    unfold renders, documents_built, remote_calls in *; simpl;
    by rewrite IH1, IH2, IH3.
Qed.

(** Removing the extracted audio never makes [load_data] fail: an
    exception of [os.remove] ends in a warning. *)
Lemma cleanup_never_raises file file_path w :
  (cleanup ext file file_path w).1 = Ok tt.
Proof.
  destruct (cleanup ext file file_path w) as [r w'] eqn:H.
  by apply cleanup_spec in H as [-> _].
Qed.

(** When [os.remove] is not refused, the extracted audio is gone. *)
Lemma cleanup_deletes file file_path w :
  is_url file = false ->
  file_path <> str_of_file ext file ->
  remove_denied ext file_path = None ->
  files (cleanup ext file file_path w).2 !! file_path = None.
Proof.
  intros Hu Hne%String.eqb_neq Hd. unfold cleanup, os_remove.
  rewrite Hu, Hne, Hd. unfold_m. simpl.
  destruct (files w !! file_path) eqn:E; simpl; [|done].
  apply lookup_delete_eq.
Qed.

End Phases.
(** ** Properties *)

Section Properties.

Context (ext : Externals).

(** C1.  The keyword dictionary handed to the remote call has a
    [language] key exactly when [language] is set (a non-empty string,
    which is what the truth test of line 234 asks for) and
    [language_detection] is false.  With [language_detection] true the
    key is absent whatever [language] holds; with [language_detection]
    false and [language="en"] the dictionary maps [language] to "en". *)
Theorem language_key_iff (self : Reader) :
  (is_Some (config_params self !! "language")
     <-> PyStr.truthy (language self) = true
         /\ language_detection self = false)
  /\ (language_detection self = true ->
      config_params self !! "language" = None)
  /\ (language_detection self = false -> language self = Some "en" ->
      config_params self !! "language" = Some (PStr "en")).
Proof.
  rewrite config_params_language. split; [|split].
  - destruct (PyStr.truthy _), (language_detection self); simpl;
      split; try (by intros [? [=]]); try (by intros [[=] [=]]); eauto.
  - intros ->. by rewrite andb_false_r.
  - by intros -> ->.
Qed.

(** C7.  The keyword dictionary has the [word_boost] key exactly when
    the [word_boost] list is non-empty, the [custom_spelling] key exactly
    when the [custom_spelling] list is non-empty, and it always has the
    [speech_threshold] key, mapped to the configured value, which is
    [None] when no threshold was given. *)
Theorem optional_keys (self : Reader) :
  (is_Some (config_params self !! "word_boost")
     <-> exists w ws, word_boost self = Some (w :: ws))
  /\ (is_Some (config_params self !! "custom_spelling")
        <-> exists c cs, custom_spelling self = Some (c :: cs))
  /\ config_params self !! "speech_threshold"
     = Some (match speech_threshold self with
             | Some x => PFloat x
             | None => PNone
             end).
Proof.
  rewrite config_params_word_boost, config_params_custom_spelling,
    config_params_speech_threshold.
  split; [|split; [|done]].
  - destruct (word_boost self) as [[|w ws]|]; simpl; split;
      try (by intros [? [=]]); try (by intros (? & ? & [=])); eauto.
  - destruct (custom_spelling self) as [[|c cs]|]; simpl; split;
      try (by intros [? [=]]); try (by intros (? & ? & [=])); eauto.
Qed.

(** C4.  [__init__] takes the credential from the [api_key] argument
    when one is given and from the environment variable otherwise; when
    neither gives one it raises the [ValueError] that is the reader's
    configuration error, and when one of them does it returns the reader
    holding that credential. *)
Theorem init_credential (a : InitArgs) (w : World) :
  let env := environ_get ext "ASSEMBLYAI_API_KEY" in
  (PyStr.truthy (arg_api_key a) = true ->
     exists self w', __init__ ext a w = (Ok self, w')
                     /\ api_key self = arg_api_key a
                     /\ aai_settings_api_key w' = arg_api_key a)
  /\ (PyStr.truthy (arg_api_key a) = false -> PyStr.truthy env = true ->
        exists self w', __init__ ext a w = (Ok self, w')
                        /\ api_key self = env
                        /\ aai_settings_api_key w' = env)
  /\ (PyStr.truthy (arg_api_key a) = false -> PyStr.truthy env = false ->
        exists message,
          __init__ ext a w = (Raise (Exn ValueError message), w)).
Proof.
  unfold __init__, PyStr.or_. repeat split.
  - intros Ha. rewrite !Ha. simpl. unfold_m.
    destruct (arg_speech_model a); simpl; eauto.
  - intros Ha He. rewrite !Ha, !He. simpl. unfold_m.
    destruct (arg_speech_model a); simpl; eauto.
  - intros Ha He. rewrite !Ha, !He. simpl. unfold_m. eauto.
Qed.

(** C5.  For a path with a recognized audio extension, and for a path
    whose extension is not a recognized video extension,
    [_prepare_audio_file] returns the path it was given and touches
    nothing: no temporary file, no call to the decoder. *)
Theorem prepare_passthrough (file_path : string)
    (fs : option AbstractFileSystem) (w : World) :
  is_audio_path ext file_path = true \/ is_video_path ext file_path = false ->
  _prepare_audio_file ext file_path fs w = (Ok file_path, w).
Proof.
  unfold _prepare_audio_file. intros [-> | ->]; [done|].
  by destruct (is_audio_path ext file_path).
Qed.

(** C8.  When the service answers without error and [output_format] is
    text, [_transcribe_with_assemblyai] returns the transcript's text,
    and the empty string when the transcript has none; no renderer is
    called. *)
Theorem text_rendering (self : Reader) (file_path : string) (w : World)
    (t : aai.Transcript) :
  TranscriptionConfig_init ext (config_params self) = Ok tt ->
  transcribe ext (config_params self) file_path = Ok t ->
  aai.status t <> aai.TranscriptStatus.error ->
  output_format self = TranscriptFormat.TEXT ->
  exists rendered w',
    _transcribe_with_assemblyai ext self file_path w = (Ok rendered, w')
    /\ (forall s, aai.text t = Some s -> rendered = s)
    /\ (aai.text t = None -> rendered = EmptyString)
    /\ renders (events w') = renders (events w).
Proof.
  intros Hc Ht Hs Hf. unfold _transcribe_with_assemblyai. unfold_m.
  rewrite Hc, Ht, Hf. simpl.
  destruct (aai.status t) eqn:E; simpl; try done;
    (eexists _, _; split; [done|]; trace_simpl;
     split; [intros s ->; by destruct s | split; [by intros -> | done]]).
Qed.

(** C9.  When the service answers without error and [output_format] is
    srt (resp. vtt), [_transcribe_with_assemblyai] calls the SRT (resp.
    VTT) renderer once, with [chars_per_caption] as its width, and
    returns what the renderer returns. *)
Theorem subtitle_rendering (self : Reader) (file_path : string) (w : World)
    (t : aai.Transcript) :
  TranscriptionConfig_init ext (config_params self) = Ok tt ->
  transcribe ext (config_params self) file_path = Ok t ->
  aai.status t <> aai.TranscriptStatus.error ->
  (output_format self = TranscriptFormat.SRT ->
     exists w',
       _transcribe_with_assemblyai ext self file_path w
       = (aai.export_subtitles_srt t (chars_per_caption self), w')
       /\ renders (events w')
          = renders (events w)
            ++ [(TranscriptFormat.SRT, chars_per_caption self)])
  /\ (output_format self = TranscriptFormat.VTT ->
        exists w',
          _transcribe_with_assemblyai ext self file_path w
          = (aai.export_subtitles_vtt t (chars_per_caption self), w')
          /\ renders (events w')
             = renders (events w)
               ++ [(TranscriptFormat.VTT, chars_per_caption self)]).
Proof.
  intros Hc Ht Hs. unfold _transcribe_with_assemblyai. unfold_m.
  rewrite Hc, Ht. simpl.
  split; intros ->; destruct (aai.status t) eqn:E; simpl; try done;
    (eexists; split; [done | by trace_simpl]).
Qed.

(** C2.  When the service reports status error,
    [_transcribe_with_assemblyai] raises an [Exception] whose message is
    "Transcription failed: " followed by the provider's error message,
    and [load_data] raises that same exception: no document is built, and
    no subtitle renderer is called anywhere in the call. *)
Theorem remote_error_raises (self : Reader) (t : aai.Transcript)
    (file : file_arg) (extra_info : option (list (string * string)))
    (fs : option AbstractFileSystem) (w w1 : World) (file_path : string) :
  media_path ext file fs w = (Ok file_path, w1) ->
  TranscriptionConfig_init ext (config_params self) = Ok tt ->
  transcribe ext (config_params self) file_path = Ok t ->
  aai.status t = aai.TranscriptStatus.error ->
  let message := "Transcription failed: " +:+ PyStr.format (aai.error t) in
  (forall w0, exists w2,
      _transcribe_with_assemblyai ext self file_path w0
      = (Raise (Exn PlainException message), w2)
      /\ renders (events w2) = renders (events w0))
  /\ (exists w',
        load_data ext self file extra_info fs w
        = (Raise (Exn PlainException message), w')
        /\ renders (events w') = renders (events w)
        /\ documents_built (events w') = documents_built (events w))
  /\ (forall provider_message,
        aai.error t = Some provider_message ->
        PyStr.contains message provider_message).
Proof.
  intros Hm Hc Ht Hs message.
  assert (Hrun : forall w0,
             _transcribe_with_assemblyai ext self file_path w0
             = (Raise (Exn PlainException message),
                {| files := files w0;
                   events := (events w0
                              ++ [EvTranscribe (config_params self) file_path])
                             ++ [EvLog ERROR message];
                   temps := temps w0;
                   aai_settings_api_key := aai_settings_api_key w0 |})).
  { intros w0. unfold _transcribe_with_assemblyai. unfold_m.
    by rewrite Hc, Ht, Hs. }
  split; [|split].
  - intros w0. eexists. split; [apply Hrun | by trace_simpl].
  - unfold load_data, try_except, bind. rewrite Hm, Hrun. unfold_m.
    eexists. split; [done|].
    apply media_path_spec in Hm as (_ & l & -> & Hl & _).
    apply preparation_events_silent in Hl as (Hr & Hd & _).
    unfold renders, documents_built in *. simpl.
    rewrite !omap_app, Hr, Hd. simpl. by rewrite !app_nil_r.
  - intros provider_message He. subst message. rewrite He. simpl.
    exists "Transcription failed: ", EmptyString.
    by rewrite app_empty_r.
Qed.

(** C6.  For a path with a recognized video extension,
    [_prepare_audio_file] runs the extraction.  It returns exactly when
    every step goes through: pydub imports, tempfile gives a free name
    ending in .mp3, the input opens and decodes, and its first mono
    channel exports.  The result is then that temporary file, now holding
    the exported bytes, and the decoder has been called once, on the
    input.  The file is new, so the result differs from the path of any
    file that was there, the input included.  When some step does not go
    through the call raises: the input path is never given back in place
    of the audio. *)
Theorem video_extraction (file_path : string)
    (fs : option AbstractFileSystem) (w : World) :
  is_video_path ext file_path = true ->
  (forall q w',
      _prepare_audio_file ext file_path fs w = (Ok q, w')
      <-> exists stem src data,
            extraction_goes_through ext fs file_path w stem src data
            /\ q = stem +:+ ".mp3"
            /\ w' = after_extraction w q data src)
  /\ (forall q w',
        _prepare_audio_file ext file_path fs w = (Ok q, w') ->
        (exists src,
            decoder_input fs file_path = Ok src
            /\ extractions (events w') = extractions (events w) ++ [src])
        /\ files w !! q = None
        /\ is_Some (files w' !! q)
        /\ (is_Some (files w !! file_path) \/ lower_keeps ext ".mp3" ->
            q <> file_path))
  /\ ((forall stem src data,
         ~ extraction_goes_through ext fs file_path w stem src data) ->
      exists e w', _prepare_audio_file ext file_path fs w = (Raise e, w')).
Proof.
  intros Hv.
  assert (Hrun : forall q w',
             _prepare_audio_file ext file_path fs w = (Ok q, w')
             <-> extract_audio ext file_path fs w = (Ok q, w')).
  { intros q w'. unfold _prepare_audio_file, try_except.
    rewrite (video_not_audio _ _ Hv), Hv.
    destruct (extract_audio ext file_path fs w) as [[q0|e] w0]; [done|].
    destruct (is_ImportError e); unfold_m; split; intros [=]. }
  split; [|split].
  - intros q w'. rewrite Hrun. apply extract_audio_ok_iff.
  - intros q w' (stem & src & data & Hgo & -> & ->)%Hrun%extract_audio_ok_iff.
    destruct Hgo as (_ & _ & Hn & Hsrc & _).
    split; [exists src; split; [done | by trace_simpl]|].
    split; [done|]. split; [simpl; rewrite lookup_insert_eq; by eexists|].
    intros [[c Hc] | Hk] Heq.
    + rewrite Heq in Hn. congruence.
    + apply (temp_mp3_not_video _ stem) in Hk. congruence.
  - intros Hno.
    destruct (_prepare_audio_file ext file_path fs w) as [[q|e] w'] eqn:H;
      [|by eexists _, _].
    pose proof (proj1 (Hrun q w') eq_refl) as Hx.
    apply extract_audio_ok_iff in Hx as (stem & src & data & Hgo & _).
    by destruct (Hno stem src data).
Qed.

(** C10.  [load_data] never deletes the caller's file.  Whatever the
    outcome, an input file that was on disk before the call is there
    after it with the content it had; [os.remove] is called at most once,
    and only on a path other than the input path.  For a URL and for a
    file that is not a video file [os.remove] is not called at all and
    the files on disk are the same after the call as before. *)
Theorem input_file_untouched (self : Reader) (file : file_arg)
    (extra_info : option (list (string * string)))
    (fs : option AbstractFileSystem) (w : World) :
  let input := str_of_file ext file in
  let w' := (load_data ext self file extra_info fs w).2 in
  (forall content,
      files w !! input = Some content -> files w' !! input = Some content)
  /\ (is_url file = true \/ is_video_path ext input = false ->
      files w' = files w)
  /\ exists l,
       events w' = events w ++ l
       /\ (length (removes l) <= 1)%nat
       /\ (forall p, p ∈ removes l -> p <> input)
       /\ (is_url file = true \/ is_video_path ext input = false ->
           removes l = []).
Proof.
  intros input w'. subst input w'.
  destruct (load_data ext self file extra_info fs w) as [r w'] eqn:H.
  apply load_data_spec in H as (Hf & Hall & l & Hev & _ & Hrm). simpl.
  split; [intros c Hc; rewrite Hf by (by eexists); done|].
  split; [done|]. exists l. split; [done|].
  destruct Hrm as [-> | (q & -> & Hne & Hu & Hv)]; simpl.
  - repeat split; [lia | by intros p ?%elem_of_nil].
  - repeat split; [lia | by intros p ->%list_elem_of_singleton |].
    intros [?|?]; congruence.
Qed.

(** Every remote call, renderer call included, that [load_data] makes
    carries the reader's own configuration. *)
Lemma load_data_events (self : Reader) (file : file_arg)
    (extra_info : option (list (string * string)))
    (fs : option AbstractFileSystem) (w : World) :
  exists l,
    events (load_data ext self file extra_info fs w).2 = events w ++ l
    /\ Forall (reader_event self) l.
Proof.
  destruct (load_data ext self file extra_info fs w) as [r w'] eqn:H.
  apply load_data_spec in H as (_ & _ & l & Hev & Hl & _). eauto.
Qed.

End Properties.

(** ** The properties at work on concrete collaborators *)

Import Scenario.

(** [__init__] on [args] builds the reader the runs below use. *)
Example init_builds_reader :
  (__init__ (ext None completed []) args world).1 = Ok srt_reader.
Proof. reflexivity. Qed.

(** An empty [language] counts as not set: no key. *)
Example empty_language_not_sent :
  config_params
    {| api_key := Some "secret"; speech_model := aai.best;
       language_detection := false; language := Some EmptyString;
       punctuate := true; format_text := true; disfluencies := false;
       filter_profanity := false; word_boost := None;
       custom_spelling := None; output_format := TranscriptFormat.TEXT;
       chars_per_caption := 128; speech_threshold := None;
       speaker_labels := false; multichannel := true |} !! "language"
  = None.
Proof. apply config_params_language. Qed.

(** [language="en"] with detection off reaches the dictionary. *)
Lemma language_key_witness :
  language_detection text_reader = false
  /\ language text_reader = Some "en"
  /\ config_params text_reader !! "language" = Some (PStr "en").
Proof.
  split; [reflexivity|]. split; [reflexivity|].
  destruct (language_key_iff text_reader) as (_ & _ & H).
  apply H; reflexivity.
Defined.

(** With the argument given the environment is not consulted; without
    both, construction fails. *)
Lemma init_credential_witness :
  (exists self w',
      __init__ (ext (Some "from env") completed []) args world = (Ok self, w')
      /\ api_key self = Some "secret"
      /\ aai_settings_api_key w' = Some "secret")
  /\ (exists message,
        __init__ (ext None completed []) default_args world
        = (Raise (Exn ValueError message), world)).
Proof.
  split.
  - destruct (init_credential (ext (Some "from env") completed []) args world)
      as (H & _ & _).
    apply H. reflexivity.
  - destruct (init_credential (ext None completed []) default_args world)
      as (_ & _ & H).
    apply H; reflexivity.
Defined.

(** An .ogg file is handed on as it is. *)
Lemma prepare_passthrough_witness :
  is_audio_path (ext None completed []) "memo.ogg" = true
  /\ _prepare_audio_file (ext None completed []) "memo.ogg" None world
     = (Ok "memo.ogg", world).
Proof.
  split; [reflexivity|].
  apply prepare_passthrough. left. reflexivity.
Defined.

(** An .mp4 file is decoded into a new mp3 file. *)
Lemma video_extraction_witness :
  is_video_path (ext None completed []) "talk.mp4" = true
  /\ _prepare_audio_file (ext None completed []) "talk.mp4" None world
     = (Ok "/tmp/tmpk3v9.mp3",
        after_extraction world "/tmp/tmpk3v9.mp3" "ID3 left channel"
          (FromPath "talk.mp4"))
  /\ "/tmp/tmpk3v9.mp3" <> "talk.mp4".
Proof.
  split; [reflexivity|].
  destruct (video_extraction (ext None completed []) "talk.mp4" None world
              eq_refl) as (Hiff & Hok & _).
  assert (Hrun : _prepare_audio_file (ext None completed []) "talk.mp4"
                   None world
                 = (Ok "/tmp/tmpk3v9.mp3",
                    after_extraction world "/tmp/tmpk3v9.mp3"
                      "ID3 left channel" (FromPath "talk.mp4"))).
  { apply Hiff.
    exists "/tmp/tmpk3v9", (FromPath "talk.mp4"), "ID3 left channel".
    split; [|split; reflexivity].
    unfold extraction_goes_through.
    split; [reflexivity|]. split; [reflexivity|]. split; [reflexivity|].
    split; [reflexivity|]. exists 1%N, 2%N, [3%N].
    split; [reflexivity|]. split; reflexivity. }
  split; [exact Hrun|].
  destruct (Hok _ _ Hrun) as (_ & _ & _ & Hne).
  apply Hne. left. exists "moving pictures". reflexivity.
Defined.

(** A failed transcription of a URL surfaces the provider's message. *)
Lemma remote_error_witness :
  aai.status failed = aai.TranscriptStatus.error
  /\ exists w',
       load_data (ext None failed []) srt_reader
         (FileStr "https://host/clip.mp3") None None world
       = (Raise (Exn PlainException "Transcription failed: Download error"),
          w')
       /\ renders (events w') = renders (events world)
       /\ documents_built (events w') = documents_built (events world).
Proof.
  split; [reflexivity|].
  destruct (remote_error_raises (ext None failed []) srt_reader failed
              (FileStr "https://host/clip.mp3") None None world world
              "https://host/clip.mp3" eq_refl eq_refl eq_refl eq_refl)
    as (_ & H & _).
  exact H.
Defined.

(** Text output of a transcript without text is the empty string. *)
Lemma text_rendering_witness :
  aai.text silent = None
  /\ exists w',
       _transcribe_with_assemblyai (ext None silent []) text_reader
         "memo.ogg" world
       = (Ok EmptyString, w').
Proof.
  split; [reflexivity|].
  assert (Hs : aai.status silent <> aai.TranscriptStatus.error)
    by discriminate.
  destruct (text_rendering (ext None silent []) text_reader "memo.ogg" world
              silent eq_refl eq_refl Hs eq_refl)
    as (rendered & w' & Hrun & _ & Hnone & _).
  exists w'. rewrite (Hnone eq_refl) in Hrun. exact Hrun.
Defined.

(** SRT output at [chars_per_caption=256]: the renderer is asked for
    width 256 and its answer is the result. *)
Lemma subtitle_rendering_witness :
  chars_per_caption srt_reader = 256
  /\ exists w',
       _transcribe_with_assemblyai (ext None completed []) srt_reader
         "memo.ogg" world
       = (Ok "srt at 256", w')
       /\ renders (events w') = [(TranscriptFormat.SRT, 256)].
Proof.
  split; [reflexivity|].
  assert (Hs : aai.status completed <> aai.TranscriptStatus.error)
    by discriminate.
  destruct (subtitle_rendering (ext None completed []) srt_reader "memo.ogg"
              world completed eq_refl eq_refl Hs) as [H _].
  exact (H eq_refl).
Defined.

(** After a video went through, the video is still there. *)
Lemma input_file_untouched_witness :
  files world !! "talk.mp4" = Some "moving pictures"
  /\ files (load_data (ext None completed []) srt_reader (FileStr "talk.mp4")
              None None world).2 !! "talk.mp4"
     = Some "moving pictures".
Proof.
  split; [reflexivity|].
  destruct (input_file_untouched (ext None completed []) srt_reader
              (FileStr "talk.mp4") None None world) as [H _].
  apply H. reflexivity.
Defined.

(** C3.  The extracted audio outlives a failed transcription.  The
    input is a local video, the extraction succeeds and creates
    /tmp/tmpk3v9.mp3, the service reports status error: [load_data]
    raises, [os.remove] is never called, and the temporary file is still
    on disk when the call is over. *)
Theorem temp_file_left_after_remote_error :
  let run := load_data (ext None failed []) srt_reader (FileStr "talk.mp4")
               None None world in
  files world !! "/tmp/tmpk3v9.mp3" = None
  /\ run.1 = Raise (Exn PlainException "Transcription failed: Download error")
  /\ files run.2 !! "/tmp/tmpk3v9.mp3" = Some "ID3 left channel"
  /\ removes (events run.2) = [].
Proof. vm_compute. repeat split. Qed.

(** The same input with a successful transcription: the temporary file
    is removed. *)
Lemma temp_file_removed_after_success :
  let run := load_data (ext None completed []) srt_reader (FileStr "talk.mp4")
               None None world in
  run.1 = Ok [ {| doc_text := "srt at 256";
                  doc_metadata := [("filename", "/tmp/tmpq71x")] |} ]
  /\ files run.2 !! "/tmp/tmpk3v9.mp3" = None
  /\ removes (events run.2) = ["/tmp/tmpk3v9.mp3"].
Proof. vm_compute. repeat split. Qed.

(** When [os.remove] is refused the call still returns its document,
    with a warning in the log and the temporary file left behind. *)
Lemma cleanup_failure_is_not_fatal :
  let run := load_data (ext None completed ["/tmp/tmpk3v9.mp3"]) srt_reader
               (FileStr "talk.mp4") None None world in
  run.1 = Ok [ {| doc_text := "srt at 256";
                  doc_metadata := [("filename", "/tmp/tmpq71x")] |} ]
  /\ files run.2 !! "/tmp/tmpk3v9.mp3" = Some "ID3 left channel"
  /\ EvLog WARNING
       "Failed to remove temporary file /tmp/tmpk3v9.mp3: Permission denied"
     ∈ events run.2.
Proof.
  vm_compute. repeat split.
  repeat (apply list_elem_of_here || apply list_elem_of_further).
Qed.

(** ** More on the request dictionary *)

Section MorePayload.

Variable self : Reader.

(** The options that are always sent reach the dictionary with the values
    the reader holds; writing [punctuate] and [format_text] twice in the
    dict display changes nothing. *)
Theorem fixed_keys_verbatim :
  config_params self !! "speech_model" = Some (PModel (speech_model self))
  /\ config_params self !! "language_detection"
     = Some (PBool (language_detection self))
  /\ config_params self !! "punctuate" = Some (PBool (punctuate self))
  /\ config_params self !! "format_text" = Some (PBool (format_text self))
  /\ config_params self !! "disfluencies" = Some (PBool (disfluencies self))
  /\ config_params self !! "filter_profanity"
     = Some (PBool (filter_profanity self))
  /\ config_params self !! "speaker_labels"
     = Some (PBool (speaker_labels self))
  /\ config_params self !! "multichannel" = Some (PBool (multichannel self)).
Proof.
  unfold config_params. rewrite !lookup_store_if_ne by done.
  unfold dict_display; simpl.
  repeat split; by simplify_map_eq.
Qed.

(** The dictionary has no key outside the twelve of [config_keys], and at
    least the nine that are always written. *)
Theorem config_keys_closed (key : string) :
  (is_Some (config_params self !! key) -> key ∈ config_keys)
  /\ (9 <= size (config_params self) <= 12)%nat.
Proof.
  split.
  - intros [v Hv]. unfold config_params, store_if, dict_display in Hv.
    simpl in Hv. unfold config_keys.
    repeat case_match;
      repeat (apply lookup_insert_Some in Hv as [[<- _] | [_ Hv]];
              [set_solver|]);
      by rewrite lookup_empty in Hv.
  - unfold config_params, store_if, dict_display. simpl.
    repeat case_match;
      rewrite ?(insert_insert_ne _ "punctuate"),
        ?(insert_insert_ne _ "format_text") by done;
      repeat (rewrite map_size_insert;
              rewrite ?lookup_insert_ne by done;
              rewrite ?lookup_insert_eq, ?lookup_empty; simpl);
      rewrite map_size_empty; lia.
Qed.

(** When an optional key is present its value is the configured one:
    the whole [word_boost] list, the whole [custom_spelling] list, the
    [language] code. *)
Theorem optional_values_verbatim :
  (forall l, config_params self !! "word_boost" = Some (PStrList l)
             <-> word_boost self = Some l /\ l <> [])
  /\ (forall l, config_params self !! "custom_spelling" = Some (PDictList l)
                <-> custom_spelling self = Some l /\ l <> [])
  /\ (forall s, config_params self !! "language" = Some (PStr s)
                <-> language self = Some s /\ s <> EmptyString
                    /\ language_detection self = false).
Proof.
  rewrite config_params_word_boost, config_params_custom_spelling,
    config_params_language.
  split; [|split].
  - intros l. destruct (word_boost self) as [[|x xs]|]; simpl;
      (split; [by intros ?; simplify_eq | by intros [? ?]; simplify_eq]).
  - intros l. destruct (custom_spelling self) as [[|x xs]|]; simpl;
      (split; [by intros ?; simplify_eq | by intros [? ?]; simplify_eq]).
  - intros s.
    destruct (language self) as [[|c t]|], (language_detection self); simpl;
      (split; [by intros ?; simplify_eq
              | by intros (? & ? & ?); simplify_eq]).
Qed.

End MorePayload.

(** ** The outcomes of [load_data], phase by phase *)

Section Outcomes.

Context (ext : Externals).

Lemma emit_with_event e w : emit e w = (Ok tt, with_event w e).
Proof. reflexivity. Qed.

(** [load_data] ends in one of four ways: the preparation raised, the
    transcription raised, the building of the documents raised, or all
    three went through.  A failure is logged and re-raised as it is. *)
Lemma load_data_cases self file extra_info fs w r w' :
  load_data ext self file extra_info fs w = (r, w') ->
  (exists e w1,
      media_path ext file fs w = (Raise e, w1)
      /\ r = Raise e
      /\ w' = with_event w1 (failure_record (str_of_file ext file) e))
  \/ (exists q w1 e w2,
        media_path ext file fs w = (Ok q, w1)
        /\ _transcribe_with_assemblyai ext self q w1 = (Raise e, w2)
        /\ r = Raise e
        /\ w' = with_event w2 (failure_record (str_of_file ext file) e))
  \/ (exists q w1 tr w2 w3,
        media_path ext file fs w = (Ok q, w1)
        /\ _transcribe_with_assemblyai ext self q w1 = (Ok tr, w2)
        /\ cleanup ext file q w2 = (Ok tt, w3)
        /\ ((exists e w4,
                make_documents ext tr w3 = (Raise e, w4)
                /\ r = Raise e
                /\ w' = with_event w4
                          (failure_record (str_of_file ext file) e))
            \/ (exists docs,
                   make_documents ext tr w3 = (Ok docs, w')
                   /\ r = Ok docs))).
Proof.
  unfold load_data, try_except, bind. intros H.
  destruct (media_path ext file fs w) as [[q|e] w1] eqn:Hm.
  - destruct (_transcribe_with_assemblyai ext self q w1)
      as [[tr|e] w2] eqn:Ht.
    + destruct (cleanup ext file q w2) as [rc w3] eqn:Hc.
      pose proof (cleanup_never_raises ext file q w2) as Hok.
      rewrite Hc in Hok. simpl in Hok. subst rc.
      right; right. exists q, w1, tr, w2, w3. repeat split; [done..|].
      destruct (make_documents ext tr w3) as [[docs|e] w4] eqn:Hd.
      * right. simplify_eq. by exists docs.
      * left. unfold_m. simplify_eq/=. by exists e, w4.
    + right; left. unfold_m. simplify_eq/=. by exists q, w1, e, w2.
  - left. unfold_m. simplify_eq/=. by exists e, w1.
Qed.

Lemma prepare_audio_ok_logs file_path fs w q w' :
  _prepare_audio_file ext file_path fs w = (Ok q, w') ->
  logs (events w') = logs (events w).
Proof.
  unfold _prepare_audio_file, extract_audio, NamedTemporaryFile. unfold_m.
  intros H. repeat case_match; simplify_eq/=; by trace_log_simpl.
Qed.

Lemma media_path_ok_logs file fs w q w' :
  media_path ext file fs w = (Ok q, w') ->
  logs (events w') = logs (events w).
Proof.
  unfold media_path. destruct (is_url file).
  - by intros [= _ <-].
  - apply prepare_audio_ok_logs.
Qed.

Lemma media_path_quiet file fs w r w' :
  media_path ext file fs w = (r, w') ->
  remote_calls (events w') = remote_calls (events w)
  /\ removes (events w') = removes (events w).
Proof.
  intros (_ & l & -> & Hl & Hrm & _)%media_path_spec.
  apply preparation_events_silent in Hl as (_ & _ & Hc).
  unfold remote_calls, removes in *. by rewrite !omap_app, Hc, Hrm, !app_nil_r.
Qed.

Lemma transcribe_outcome self file_path w r w' :
  _transcribe_with_assemblyai ext self file_path w = (r, w') ->
  files w' = files w
  /\ temps w' = temps w
  /\ removes (events w') = removes (events w)
  /\ extractions (events w') = extractions (events w)
  /\ documents_built (events w') = documents_built (events w)
  /\ match r with
     | Ok _ =>
         logs (events w') = logs (events w)
         /\ remote_calls (events w')
            = remote_calls (events w) ++ [(config_params self, file_path)]
     | Raise _ =>
         remote_calls (events w') = remote_calls (events w)
         \/ remote_calls (events w')
            = remote_calls (events w) ++ [(config_params self, file_path)]
     end.
Proof.
  unfold _transcribe_with_assemblyai. unfold_m. intros H.
  repeat case_match; simplify_eq/=; trace_log_simpl; auto 10.
Qed.

Lemma cleanup_outcome file file_path w r w' :
  cleanup ext file file_path w = (r, w') ->
  temps w' = temps w
  /\ (forall x, files w !! x = None -> files w' !! x = None)
  /\ remote_calls (events w') = remote_calls (events w)
  /\ extractions (events w') = extractions (events w)
  /\ documents_built (events w') = documents_built (events w)
  /\ exists messages,
       logs (events w') = logs (events w) ++ map (pair WARNING) messages.
Proof.
  unfold cleanup, os_remove. unfold_m. intros H.
  repeat case_match; simplify_eq/=; trace_log_simpl;
    (split; [done|]);
    (split; [intros x Hx; first [done | apply lookup_delete_None; by right]|]);
    do 3 (split; [done|]);
    first [by eexists [_] | exists []; simpl; by rewrite app_nil_r].
Qed.

Lemma make_documents_outcome transcript w r w' :
  make_documents ext transcript w = (r, w') ->
  files w' = files w
  /\ logs (events w') = logs (events w)
  /\ remote_calls (events w') = remote_calls (events w)
  /\ extractions (events w') = extractions (events w)
  /\ removes (events w') = removes (events w).
Proof.
  intros H. pose proof H as (Hf & _)%make_documents_spec.
  revert H. unfold make_documents, NamedTemporaryFile, close_and_delete.
  unfold_m. intros H.
  repeat case_match; simplify_eq/=; trace_log_simpl; by rewrite ?Hf.
Qed.

End Outcomes.

(** ** Further properties of the reader *)

Section MoreProperties.

Context (ext : Externals).

(** [__init__] keeps every option as it was passed, maps the speech model
    to the provider's member of the same name, publishes the credential in
    [aai.settings.api_key], and never holds an empty credential.  Its only
    failure is the [ValueError] of a missing credential, raised before
    anything is stored: no [speech_model] makes the [getattr] fail. *)
Theorem init_stores_options (a : InitArgs) (w : World) :
  match __init__ ext a w with
  | (Ok self, w') =>
      PyStr.truthy (api_key self) = true
      /\ aai_settings_api_key w' = api_key self
      /\ files w' = files w /\ events w' = events w /\ temps w' = temps w
      /\ speech_model self = provider_model (arg_speech_model a)
      /\ language_detection self = arg_language_detection a
      /\ language self = arg_language a
      /\ punctuate self = arg_punctuate a
      /\ format_text self = arg_format_text a
      /\ disfluencies self = arg_disfluencies a
      /\ filter_profanity self = arg_filter_profanity a
      /\ word_boost self = arg_word_boost a
      /\ custom_spelling self = arg_custom_spelling a
      /\ output_format self = arg_output_format a
      /\ chars_per_caption self = arg_chars_per_caption a
      /\ speech_threshold self = arg_speech_threshold a
      /\ speaker_labels self = arg_speaker_labels a
      /\ multichannel self = arg_multichannel a
  | (Raise e, w') =>
      exn_class_of e = ValueError /\ w' = w
      /\ PyStr.truthy (arg_api_key a) = false
      /\ PyStr.truthy (environ_get ext "ASSEMBLYAI_API_KEY") = false
  end.
Proof.
  unfold __init__, PyStr.or_.
  destruct (PyStr.truthy (arg_api_key a)) eqn:Ha.
  - rewrite Ha. unfold_m. simpl.
    destruct (arg_speech_model a); simpl; by repeat split.
  - destruct (PyStr.truthy (environ_get ext "ASSEMBLYAI_API_KEY")) eqn:He.
    + unfold_m. simpl.
      destruct (arg_speech_model a); simpl; by repeat split.
    + by unfold_m.
Qed.

(** A URL is handed to the service as it was written.  Nothing local
    happens on the way: no decoder call, no [os.remove], and the files on
    disk are the same after the call as before. *)
Theorem url_goes_straight_to_remote (self : Reader) (url : string)
    (extra_info : option (list (string * string)))
    (fs : option AbstractFileSystem) (w : World) :
  is_url (FileStr url) = true ->
  let w' := (load_data ext self (FileStr url) extra_info fs w).2 in
  files w' = files w
  /\ extractions (events w') = extractions (events w)
  /\ removes (events w') = removes (events w)
  /\ (remote_calls (events w') = remote_calls (events w)
      \/ remote_calls (events w')
         = remote_calls (events w) ++ [(config_params self, url)]).
Proof.
  intros Hu w'. subst w'.
  assert (Hm : media_path ext (FileStr url) fs w = (Ok url, w)).
  { unfold media_path, str_of_file. by rewrite !Hu. }
  assert (Hc : forall w2, cleanup ext (FileStr url) url w2 = (Ok tt, w2)).
  { intros w2. unfold cleanup. by rewrite Hu. }
  destruct (load_data ext self (FileStr url) extra_info fs w) as [r w'] eqn:H.
  simpl. apply load_data_cases in H
    as [(e & w1 & Hm' & _) | [(q & w1 & e & w2 & Hm' & Ht & -> & ->)
        | (q & w1 & tr & w2 & w3 & Hm' & Ht & Hc' & Hd)]];
    rewrite Hm in Hm'; simplify_eq.
  - apply transcribe_outcome in Ht as (Hf & _ & Hr & He & _ & Hcalls).
    trace_log_simpl. rewrite Hf, Hr, He. by repeat split.
  - rewrite Hc in Hc'. simplify_eq.
    apply transcribe_outcome in Ht as (Hf & _ & Hr & He & _ & _ & Hcalls).
    destruct Hd as [(e & w4 & Hd & -> & ->) | (docs & Hd & ->)];
      apply make_documents_outcome in Hd as (Hf4 & _ & Hc4 & He4 & Hr4);
      trace_log_simpl; rewrite Hf4, Hc4, He4, Hr4, Hf, Hr, He, Hcalls;
      repeat split; by right.
Qed.

(** Failures and the log.  When [load_data] raises, the last record of
    the log is the ERROR record naming the input and the exception that is
    raised.  When it returns, the log has gained warnings at most. *)
Theorem error_logged_iff_failure (self : Reader) (file : file_arg)
    (extra_info : option (list (string * string)))
    (fs : option AbstractFileSystem) (w : World) :
  match load_data ext self file extra_info fs w with
  | (Raise e, w') =>
      last (events w') = Some (failure_record (str_of_file ext file) e)
  | (Ok _, w') =>
      exists messages,
        logs (events w') = logs (events w) ++ map (pair WARNING) messages
  end.
Proof.
  destruct (load_data ext self file extra_info fs w) as [r w'] eqn:H.
  apply load_data_cases in H
    as [(e & w1 & _ & -> & ->) | [(q & w1 & e & w2 & _ & _ & -> & ->)
        | (q & w1 & tr & w2 & w3 & Hm & Ht & Hc & Hd)]];
    try (simpl; by rewrite last_snoc).
  destruct Hd as [(e & w4 & _ & -> & ->) | (docs & Hd & ->)];
    [simpl; by rewrite last_snoc|].
  apply media_path_ok_logs in Hm.
  apply transcribe_outcome in Ht as (_ & _ & _ & _ & _ & Ht & _).
  apply cleanup_outcome in Hc as (_ & _ & _ & _ & _ & messages & Hc).
  apply make_documents_outcome in Hd as (_ & Hd & _).
  exists messages. by rewrite Hd, Hc, Ht, Hm.
Qed.

(** One call, one request.  [load_data] calls the service at most once,
    with the reader's own dictionary, on the input path or, for a video,
    on the mp3 file the extraction has just created; a call that returns
    has made exactly one request. *)
Theorem at_most_one_remote_call (self : Reader) (file : file_arg)
    (extra_info : option (list (string * string)))
    (fs : option AbstractFileSystem) (w : World) :
  let input := str_of_file ext file in
  match load_data ext self file extra_info fs w with
  | (r, w') =>
      (remote_calls (events w') = remote_calls (events w)
       /\ exists e, r = Raise e)
      \/ exists q,
           remote_calls (events w')
           = remote_calls (events w) ++ [(config_params self, q)]
           /\ (q = input
               \/ (is_url file = false /\ is_video_path ext input = true
                   /\ (exists stem, q = stem +:+ ".mp3")
                   /\ files w !! q = None))
  end.
Proof.
  intros input. subst input.
  destruct (load_data ext self file extra_info fs w) as [r w'] eqn:H.
  apply load_data_cases in H
    as [(e & w1 & Hm & -> & ->) | [(q & w1 & e & w2 & Hm & Ht & -> & ->)
        | (q & w1 & tr & w2 & w3 & Hm & Ht & Hc & Hd)]].
  - left. apply media_path_quiet in Hm as [Hm _].
    trace_log_simpl. split; [done | by eexists].
  - pose proof Hm as (_ & _ & _ & _ & _ & Hq)%media_path_spec.
    apply media_path_quiet in Hm as [Hm _].
    apply transcribe_outcome in Ht as (_ & _ & _ & _ & _ & [Ht | Ht]).
    + left. trace_log_simpl. rewrite Ht, Hm. split; [done | by eexists].
    + right. exists q. trace_log_simpl. rewrite Ht, Hm. split; [done|].
      destruct Hq as [[-> _] | (Hu & Hv & Hst & Hno & _)];
        [by left | by right].
  - right. exists q.
    pose proof Hm as (_ & _ & _ & _ & _ & Hq)%media_path_spec.
    apply media_path_quiet in Hm as [Hm _].
    apply transcribe_outcome in Ht as (_ & _ & _ & _ & _ & _ & Ht).
    apply cleanup_outcome in Hc as (_ & _ & Hc & _).
    split; [|destruct Hq as [[-> _] | (Hu & Hv & Hst & Hno & _)];
             [by left | by right]].
    destruct Hd as [(e & w4 & Hd & -> & ->) | (docs & Hd & ->)];
      apply make_documents_outcome in Hd as (_ & _ & Hd & _);
      trace_log_simpl; by rewrite Hd, Hc, Ht, Hm.
Qed.

(** Without pydub a video cannot be prepared: whatever [ImportError] the
    import raises, [load_data] raises the ImportError that tells how to
    install pydub.  This happens before a temporary file is created and
    before the service is called; the only trace is the ERROR record. *)
Theorem missing_pydub_fails_early (self : Reader) (file : file_arg)
    (extra_info : option (list (string * string)))
    (fs : option AbstractFileSystem) (w : World) (e : exn) :
  is_url file = false ->
  is_video_path ext (str_of_file ext file) = true ->
  import_pydub ext = Raise e ->
  is_ImportError e = true ->
  load_data ext self file extra_info fs w
  = (Raise pydub_hint,
     with_event w (failure_record (str_of_file ext file) pydub_hint)).
Proof.
  intros Hu Hv Hi He.
  unfold load_data, media_path, _prepare_audio_file, extract_audio.
  rewrite Hu, (video_not_audio _ _ Hv), Hv, Hi. unfold_m. by rewrite He.
Qed.

(** When the decoder rejects a video, read from its path or through the
    filesystem that was passed, the exception is logged and raised as it
    is, [os.remove] is not called, and the temporary mp3 file created for
    the audio stays on disk, empty. *)
Theorem temp_file_left_after_extraction_failure (file_path stem : string)
    (fs : option AbstractFileSystem) (src : media_src) (w : World)
    (e : exn) :
  is_video_path ext file_path = true ->
  import_pydub ext = Ok tt ->
  temp_stem ext (temps w) = Ok stem ->
  files w !! (stem +:+ ".mp3") = None ->
  decoder_input fs file_path = Ok src ->
  from_file ext src = Raise e ->
  is_ImportError e = false ->
  exists w',
    _prepare_audio_file ext file_path fs w = (Raise e, w')
    /\ files w' = <[stem +:+ ".mp3" := EmptyString]> (files w)
    /\ extractions (events w') = extractions (events w) ++ [src]
    /\ logs (events w')
       = logs (events w)
         ++ [(ERROR, "Error extracting audio: " +:+ str_of_exn e)]
    /\ removes (events w') = removes (events w).
Proof.
  intros Hv Hi Hs Hn Hsrc Hf He.
  unfold _prepare_audio_file, extract_audio, NamedTemporaryFile.
  rewrite (video_not_audio _ _ Hv), Hv. unfold_m.
  rewrite Hi, Hs, Hn. simpl. unfold decoder_input in Hsrc.
  destruct fs as [fsys|];
    [destruct (fs_open fsys file_path) as [f|e0]|]; simplify_eq/=;
    rewrite Hf, He; (eexists; split; [done|]); by trace_log_simpl.
Qed.

(** When the transcription raises, [load_data] raises the same exception
    without calling [os.remove]: the files on disk are those the
    preparation left, an extracted mp3 included. *)
Theorem no_cleanup_when_transcription_fails (self : Reader) (file : file_arg)
    (extra_info : option (list (string * string)))
    (fs : option AbstractFileSystem) (w w1 w2 : World) (q : string) (e : exn) :
  media_path ext file fs w = (Ok q, w1) ->
  _transcribe_with_assemblyai ext self q w1 = (Raise e, w2) ->
  exists w',
    load_data ext self file extra_info fs w = (Raise e, w')
    /\ files w' = files w1
    /\ removes (events w') = removes (events w).
Proof.
  intros Hm Ht. unfold load_data, try_except, bind. rewrite Hm, Ht.
  unfold_m. eexists. split; [done|].
  apply transcribe_outcome in Ht as (Hf & _ & Hr & _).
  apply media_path_quiet in Hm as [_ Hm].
  trace_log_simpl. by rewrite Hf, Hr, Hm.
Qed.

(** When the transcription of an extracted mp3 succeeds and [os.remove]
    is not refused, the mp3 is gone when [load_data] is over, whether the
    documents could be built or not, and [os.remove] was called once, on
    that file. *)
Theorem extracted_audio_removed_on_success (self : Reader) (file : file_arg)
    (extra_info : option (list (string * string)))
    (fs : option AbstractFileSystem) (w w1 w2 : World) (q tr : string) :
  media_path ext file fs w = (Ok q, w1) ->
  q <> str_of_file ext file ->
  _transcribe_with_assemblyai ext self q w1 = (Ok tr, w2) ->
  remove_denied ext q = None ->
  let w' := (load_data ext self file extra_info fs w).2 in
  files w' !! q = None
  /\ removes (events w') = removes (events w) ++ [q].
Proof.
  intros Hm Hne Ht Hd w'. subst w'.
  pose proof Hm as (_ & _ & _ & _ & _ & Hq)%media_path_spec.
  destruct Hq as [[? _] | (Hu & _ & _)]; [done|].
  pose proof (cleanup_deletes ext file q w2 Hu Hne Hd) as Hgone.
  pose proof (cleanup_never_raises ext file q w2) as Hok.
  destruct (cleanup ext file q w2) as [rc w3] eqn:Hc. simpl in Hgone, Hok.
  subst rc.
  pose proof Hc as (_ & _ & l3 & Hev3 & _ & [[-> _] | (_ & _ & Hrm3)])%cleanup_spec.
  { exfalso. revert Hc. unfold cleanup, os_remove.
    rewrite Hu, (proj2 (String.eqb_neq _ _) Hne). unfold_m. simpl.
    intros Hc. rewrite app_nil_r in Hev3.
    repeat case_match; simplify_eq/=;
      by apply (f_equal length) in Hev3; rewrite ?length_app in Hev3;
         simpl in Hev3; lia. }
  assert (Hr3 : removes (events w3) = removes (events w) ++ [q]).
  { apply media_path_quiet in Hm as [_ Hm].
    apply transcribe_outcome in Ht as (_ & _ & Ht & _).
    rewrite Hev3. unfold removes in *. by rewrite omap_app, Hrm3, Ht, Hm. }
  unfold load_data, try_except, bind. rewrite Hm, Ht, Hc.
  destruct (make_documents ext tr w3) as [[docs|e] w4] eqn:Hdoc;
    apply make_documents_outcome in Hdoc as (Hf4 & _ & _ & _ & Hr4);
    unfold_m; simpl; unfold removes in *; rewrite ?omap_app; simpl;
    rewrite ?app_nil_r, Hf4, Hr4; done.
Qed.

(** A refused [os.remove] costs a warning and nothing else: the cleanup
    logs the refusal it met and returns normally with the files
    untouched, and [load_data] ends as the building of the documents
    ends. *)
Theorem refused_removal_only_warns (self : Reader) (file : file_arg)
    (extra_info : option (list (string * string)))
    (fs : option AbstractFileSystem) (w w1 w2 : World) (q tr : string)
    (e : exn) :
  media_path ext file fs w = (Ok q, w1) ->
  q <> str_of_file ext file ->
  _transcribe_with_assemblyai ext self q w1 = (Ok tr, w2) ->
  remove_denied ext q = Some e ->
  let w3 := with_event (with_event w2 (EvRemove q))
              (EvLog WARNING ("Failed to remove temporary file " +:+ q
                              +:+ ": " +:+ str_of_exn e)) in
  cleanup ext file q w2 = (Ok tt, w3)
  /\ files w3 = files w2
  /\ is_Some (files w3 !! q)
  /\ (load_data ext self file extra_info fs w).1
     = (make_documents ext tr w3).1.
Proof.
  intros Hm Hne Ht Hd w3.
  pose proof Hm as (_ & _ & _ & _ & _ & Hq)%media_path_spec.
  destruct Hq as [[? _] | (Hu & _ & _ & _ & [c Hc])]; [done|].
  pose proof Ht as (Hf2 & _)%transcribe_outcome.
  rewrite <- Hf2 in Hc.
  assert (Hcl : cleanup ext file q w2 = (Ok tt, w3)).
  { unfold cleanup, os_remove.
    rewrite Hu, (proj2 (String.eqb_neq _ _) Hne). unfold_m. simpl.
    by rewrite Hc, Hd. }
  split; [done|]. split; [done|]. split; [by exists c|].
  unfold load_data, try_except, bind. rewrite Hm, Ht, Hcl.
  destruct (make_documents ext tr _) as [[docs|e2] w4]; by unfold_m.
Qed.

(** The documents are [FlatReader]'s reading of a temporary file that
    holds the rendered transcript; that file is deleted again, so the call
    leaves the disk as the cleanup left it. *)
Theorem documents_from_rendered_transcript (self : Reader) (file : file_arg)
    (extra_info : option (list (string * string)))
    (fs : option AbstractFileSystem) (w w1 w2 : World) (q tr name : string) :
  media_path ext file fs w = (Ok q, w1) ->
  _transcribe_with_assemblyai ext self q w1 = (Ok tr, w2) ->
  temp_stem ext (temps w2) = Ok name ->
  files w2 !! name = None ->
  let run := load_data ext self file extra_info fs w in
  run.1 = FlatReader_load_data ext name tr
  /\ files run.2 = files (cleanup ext file q w2).2
  /\ documents_built (events run.2) = documents_built (events w) ++ [name].
Proof.
  intros Hm Ht Hs Hn run. subst run.
  unfold load_data, try_except, bind. rewrite Hm, Ht.
  destruct (cleanup ext file q w2) as [rc w3] eqn:Hc.
  pose proof (cleanup_never_raises ext file q w2) as Hok.
  rewrite Hc in Hok. simpl in Hok. subst rc.
  apply cleanup_outcome in Hc as (Htemps & Hnone & _ & _ & Hdb3 & _).
  apply Hnone in Hn. rewrite <- Htemps in Hs.
  assert (Hdb : documents_built (events w3) = documents_built (events w)).
  { rewrite Hdb3.
    apply transcribe_outcome in Ht as (_ & _ & _ & _ & -> & _).
    apply media_path_spec in Hm as (_ & l & -> & Hl & _).
    apply preparation_events_silent in Hl as (_ & Hl & _).
    unfold documents_built in *. by rewrite omap_app, Hl, app_nil_r. }
  unfold make_documents, NamedTemporaryFile, close_and_delete. unfold_m.
  rewrite Hs, app_empty_r, Hn. simpl.
  destruct (FlatReader_load_data ext name tr); simpl;
    trace_log_simpl; rewrite Hdb;
    by rewrite insert_insert_eq, delete_insert_eq, delete_id.
Qed.

(** The two tuples of extensions never both match, whatever [str.lower]
    makes of the path; and a path is an audio (video) path exactly when
    its lower-cased form ends in one of the five audio (video)
    suffixes. *)
Theorem extension_classes (file_path : string) :
  is_audio_path ext file_path && is_video_path ext file_path = false
  /\ (is_audio_path ext file_path = true
      <-> exists pre suffix,
            suffix ∈ audio_extensions
            /\ str_lower ext file_path = pre +:+ suffix)
  /\ (is_video_path ext file_path = true
      <-> exists pre suffix,
            suffix ∈ video_extensions
            /\ str_lower ext file_path = pre +:+ suffix).
Proof.
  assert (Hany : forall s suffixes,
             PyStr.endswith_any s suffixes = true
             <-> exists pre suffix, suffix ∈ suffixes /\ s = pre +:+ suffix).
  { intros s suffixes. split.
    - intros (suffix & pre & ? & ?)%endswith_any_inv. by exists pre, suffix.
    - intros (pre & suffix & Hin & ->). unfold PyStr.endswith_any.
      apply existsb_exists. exists suffix.
      split; [by apply list_elem_of_In | apply endswith_app]. }
  split; [|split; apply Hany].
  destruct (is_video_path ext file_path) eqn:Hv.
  - by rewrite (video_not_audio _ _ Hv).
  - apply andb_false_r.
Qed.

End MoreProperties.

(** ** The further properties at work *)

(** A thirteenth key is never there. *)
Lemma config_keys_closed_witness :
  config_params Scenario.srt_reader !! "language_code" = None.
Proof.
  destruct (config_keys_closed Scenario.srt_reader "language_code")
    as [H _].
  destruct (config_params Scenario.srt_reader !! "language_code") eqn:E;
    [|reflexivity].
  exfalso. assert (Hin : "language_code" ∈ config_keys) by (apply H; eauto).
  unfold config_keys in Hin.
  repeat (apply elem_of_cons in Hin as [Hin|Hin]; [discriminate Hin|]).
  by apply elem_of_nil in Hin.
Defined.

(** A URL leaves the disk alone and is sent as it is. *)
Lemma url_goes_straight_to_remote_witness :
  is_url (FileStr "https://host/clip.mp3") = true
  /\ files (load_data (Scenario.ext None Scenario.completed [])
              Scenario.text_reader (FileStr "https://host/clip.mp3")
              None None Scenario.world).2
     = files Scenario.world.
Proof.
  split; [reflexivity|].
  destruct (url_goes_straight_to_remote
              (Scenario.ext None Scenario.completed [])
              Scenario.text_reader "https://host/clip.mp3" None None
              Scenario.world eq_refl) as [H _].
  exact H.
Defined.

(** A video on a machine without pydub. *)
Lemma missing_pydub_witness :
  is_video_path Failures.without_pydub "talk.mp4" = true
  /\ load_data Failures.without_pydub Scenario.srt_reader (FileStr "talk.mp4")
       None None Scenario.world
     = (Raise pydub_hint,
        with_event Scenario.world (failure_record "talk.mp4" pydub_hint)).
Proof.
  split; [reflexivity|].
  exact (missing_pydub_fails_early Failures.without_pydub Scenario.srt_reader
           (FileStr "talk.mp4") None None Scenario.world
           (Exn ModuleNotFoundError "No module named 'pydub'")
           eq_refl eq_refl eq_refl eq_refl).
Defined.

(** A video the decoder rejects, read through a filesystem. *)
Lemma extraction_failure_witness :
  let fs := Some {| fs_open := fun _ => Ok "raw bytes" |} in
  from_file Failures.undecodable (FromHandle "raw bytes")
  = Raise (Exn (LibraryError "CouldntDecodeError") "Decoding failed")
  /\ exists w',
       _prepare_audio_file Failures.undecodable "talk.mp4" fs Scenario.world
       = (Raise (Exn (LibraryError "CouldntDecodeError") "Decoding failed"),
          w')
       /\ files w' !! "/tmp/tmpk3v9.mp3" = Some EmptyString
       /\ removes (events w') = [].
Proof.
  intros fs. split; [reflexivity|].
  destruct (temp_file_left_after_extraction_failure Failures.undecodable
              "talk.mp4" "/tmp/tmpk3v9" fs (FromHandle "raw bytes")
              Scenario.world
              (Exn (LibraryError "CouldntDecodeError") "Decoding failed")
              eq_refl eq_refl eq_refl eq_refl eq_refl eq_refl eq_refl)
    as (w' & Hrun & Hfiles & _ & _ & Hrm).
  exists w'. split; [exact Hrun|]. split; [|exact Hrm].
  rewrite Hfiles. apply lookup_insert_eq.
Defined.

(** A video whose transcription fails keeps its extracted mp3. *)
Lemma no_cleanup_witness :
  exists w',
    load_data (Scenario.ext None Scenario.failed []) Scenario.srt_reader
      (FileStr "talk.mp4") None None Scenario.world
    = (Raise (Exn PlainException "Transcription failed: Download error"), w')
    /\ removes (events w') = [].
Proof.
  pose (E := Scenario.ext None Scenario.failed []).
  pose (w1 := (media_path E (FileStr "talk.mp4") None Scenario.world).2).
  pose (w2 := (_transcribe_with_assemblyai E Scenario.srt_reader
                 "/tmp/tmpk3v9.mp3" w1).2).
  assert (Hm : media_path E (FileStr "talk.mp4") None Scenario.world
               = (Ok "/tmp/tmpk3v9.mp3", w1))
    by (vm_compute; reflexivity).
  assert (Ht : _transcribe_with_assemblyai E Scenario.srt_reader
                 "/tmp/tmpk3v9.mp3" w1
               = (Raise (Exn PlainException
                           "Transcription failed: Download error"), w2))
    by (vm_compute; reflexivity).
  destruct (no_cleanup_when_transcription_fails E Scenario.srt_reader
              (FileStr "talk.mp4") None None Scenario.world w1 w2
              "/tmp/tmpk3v9.mp3" _ Hm Ht) as (w' & Hrun & _ & Hrm).
  exists w'. split; [exact Hrun | exact Hrm].
Defined.

(** A video whose transcription succeeds loses its extracted mp3. *)
Lemma extracted_audio_removed_witness :
  files (load_data (Scenario.ext None Scenario.completed [])
           Scenario.srt_reader (FileStr "talk.mp4") None None
           Scenario.world).2 !! "/tmp/tmpk3v9.mp3"
  = None.
Proof.
  pose (E := Scenario.ext None Scenario.completed []).
  pose (w1 := (media_path E (FileStr "talk.mp4") None Scenario.world).2).
  pose (w2 := (_transcribe_with_assemblyai E Scenario.srt_reader
                 "/tmp/tmpk3v9.mp3" w1).2).
  assert (Hm : media_path E (FileStr "talk.mp4") None Scenario.world
               = (Ok "/tmp/tmpk3v9.mp3", w1))
    by (vm_compute; reflexivity).
  assert (Hne : "/tmp/tmpk3v9.mp3" <> str_of_file E (FileStr "talk.mp4"))
    by discriminate.
  assert (Ht : _transcribe_with_assemblyai E Scenario.srt_reader
                 "/tmp/tmpk3v9.mp3" w1
               = (Ok "srt at 256", w2))
    by (vm_compute; reflexivity).
  destruct (extracted_audio_removed_on_success E Scenario.srt_reader
              (FileStr "talk.mp4") None None Scenario.world w1 w2
              "/tmp/tmpk3v9.mp3" "srt at 256" Hm Hne Ht eq_refl)
    as [H _].
  exact H.
Defined.

(** A refused removal: the cleanup logs the refusal and returns. *)
Lemma refused_removal_witness :
  remove_denied (Scenario.ext None Scenario.completed ["/tmp/tmpk3v9.mp3"])
    "/tmp/tmpk3v9.mp3"
  = Some (Exn OSError "Permission denied")
  /\ exists w2,
       cleanup (Scenario.ext None Scenario.completed ["/tmp/tmpk3v9.mp3"])
         (FileStr "talk.mp4") "/tmp/tmpk3v9.mp3" w2
       = (Ok tt,
          with_event (with_event w2 (EvRemove "/tmp/tmpk3v9.mp3"))
            (EvLog WARNING
               "Failed to remove temporary file /tmp/tmpk3v9.mp3: Permission denied")).
Proof.
  split; [reflexivity|].
  pose (E := Scenario.ext None Scenario.completed ["/tmp/tmpk3v9.mp3"]).
  pose (w1 := (media_path E (FileStr "talk.mp4") None Scenario.world).2).
  pose (w2 := (_transcribe_with_assemblyai E Scenario.srt_reader
                 "/tmp/tmpk3v9.mp3" w1).2).
  assert (Hm : media_path E (FileStr "talk.mp4") None Scenario.world
               = (Ok "/tmp/tmpk3v9.mp3", w1))
    by (vm_compute; reflexivity).
  assert (Hne : "/tmp/tmpk3v9.mp3" <> str_of_file E (FileStr "talk.mp4"))
    by discriminate.
  assert (Ht : _transcribe_with_assemblyai E Scenario.srt_reader
                 "/tmp/tmpk3v9.mp3" w1
               = (Ok "srt at 256", w2))
    by (vm_compute; reflexivity).
  destruct (refused_removal_only_warns E Scenario.srt_reader
              (FileStr "talk.mp4") None None Scenario.world w1 w2
              "/tmp/tmpk3v9.mp3" "srt at 256" _ Hm Hne Ht eq_refl)
    as (Hc & _).
  exists w2. exact Hc.
Defined.

(** The document of a URL holds the transcript's text. *)
Lemma documents_witness :
  (load_data (Scenario.ext None Scenario.completed []) Scenario.text_reader
     (FileStr "https://host/clip.mp3") None None Scenario.world).1
  = Ok [ {| doc_text := "hello world";
            doc_metadata := [("filename", "/tmp/tmpk3v9")] |} ].
Proof.
  pose (E := Scenario.ext None Scenario.completed []).
  pose (w2 := (_transcribe_with_assemblyai E Scenario.text_reader
                 "https://host/clip.mp3" Scenario.world).2).
  assert (Ht : _transcribe_with_assemblyai E Scenario.text_reader
                 "https://host/clip.mp3" Scenario.world
               = (Ok "hello world", w2))
    by (vm_compute; reflexivity).
  destruct (documents_from_rendered_transcript E Scenario.text_reader
              (FileStr "https://host/clip.mp3") None None Scenario.world
              Scenario.world w2 "https://host/clip.mp3" "hello world"
              "/tmp/tmpk3v9" eq_refl Ht eq_refl eq_refl) as [H _].
  exact H.
Defined.
